(** * Blade Runner RPG system for Foundry VTT: configuration tables, item
      rolls and the versioned-message display pass.

    A shallow embedding of
    - [src/unnamed/part_000]           (the constants module, [BR] below),
    - [src/src/system/config.js]       (the [FLBR] configuration object),
    - [src/src/item/item-document.js]  ([BladeRunnerItem], its [roll]),
    - [src/src/actor/character/character-sheet.js]
      ([BladeRunnerCharacterSheet]),
    - [src/gulpfile.js] ([pipeTemplates], [pipeStatics], [getTargetVersion],
      [bumpVersion]),
    - the message-display module stored after [src/gulpfile.js]
      ([displayMessages], [stripJSON], [handleDisplay], [isCurrent],
      [hasDisplayed], [displayPrompt], [sendToChat], [setDisplayed]).

    JavaScript strings are [string], numbers are [Z] (the tables and scores
    are integers; NaN and fractions do not occur in them), plain objects and
    [Map]s are property lists in insertion order, and code that changes the
    host (settings, dialogs, chat log, rendered applications) passes the host
    state explicitly. *)

From Stdlib Require Import List String Ascii ZArith Bool Lia.
From Stdlib Require Import Numbers.DecimalString.
From Stdlib Require Numbers.DecimalPos Numbers.DecimalZ.
Import ListNotations.

Open Scope list_scope.
Open Scope string_scope.

(* ================================================================== *)
(** * JavaScript values, objects and maps *)
(* ================================================================== *)

Module Js.

(** The JavaScript values the modelled code inspects. *)
Inductive value : Type :=
| Undefined
| Null
| Boolean (b : bool)
| Number (z : Z)
| Str (s : string).

(** ToBoolean: what [if (v)], [!v] and [v ? a : b] look at. *)
Definition truthy (v : value) : bool :=
  match v with
  | Undefined | Null => false
  | Boolean b => b
  | Number z => negb (z =? 0)%Z
  | Str s => negb (s =? EmptyString)
  end.

(** [!v] *)
Definition not (v : value) : value := Boolean (negb (truthy v)).

(** [a === b]: values of different types are never strictly equal. *)
Definition strict_eq (a b : value) : bool :=
  match a, b with
  | Undefined, Undefined => true
  | Null, Null => true
  | Boolean x, Boolean y => Bool.eqb x y
  | Number x, Number y => (x =? y)%Z
  | Str x, Str y => (x =? y)
  | _, _ => false
  end.

(** [a ?? b] *)
Definition nullish (a b : value) : value :=
  match a with
  | Undefined | Null => b
  | _ => a
  end.

(** [o ?? d] for an optional string property. *)
Definition default (o : option string) (d : string) : string :=
  match o with
  | Some s => s
  | None => d
  end.

(** Objects and [Map]s: entries in insertion order, one entry per key. *)
Section Table.
Context {K V : Type}.
Variable eqb : K -> K -> bool.

Definition table : Type := list (K * V).

Fixpoint get (k : K) (t : table) : option V :=
  match t with
  | [] => None
  | (k', v) :: t' => if eqb k k' then Some v else get k t'
  end.

(** [o[k] = v] and [m.set(k, v)]: an existing key keeps its place. *)
Fixpoint set (k : K) (v : V) (t : table) : table :=
  match t with
  | [] => [(k, v)]
  | (k', v') :: t' =>
      if eqb k k' then (k, v) :: t' else (k', v') :: set k v t'
  end.

(** An object literal, or [new Map(entries)]: the entries are set from
    left to right. *)
Definition from_entries (es : list (K * V)) : table :=
  fold_left (fun t e => set (fst e) (snd e) t) es [].

Definition keys (t : table) : list K := map fst t.
Definition values (t : table) : list V := map snd t.
End Table.

Definition object (V : Type) : Type := @table string V.
Definition prop {V} (k : string) (o : object V) : option V :=
  get String.eqb k o.
Definition literal {V} (es : list (string * V)) : object V :=
  from_entries String.eqb es.

(** The number of entries an object holds for a key. *)
Definition entriesFor {V} (k : string) (o : object V) : nat :=
  List.length (filter (fun e => String.eqb (fst e) k) o).

(** The names every object inherits from the standard
    [Object.prototype]. *)
Definition prototypeNames : list string :=
  ["constructor"; "hasOwnProperty"; "isPrototypeOf"; "propertyIsEnumerable";
   "toLocaleString"; "toString"; "valueOf"; "__proto__";
   "__defineGetter__"; "__defineSetter__"; "__lookupGetter__";
   "__lookupSetter__"].

(** What [o[k]] evaluates to on an object literal: the value of an own
    property, a member inherited from [Object.prototype] (a function, or
    the prototype itself), or [undefined]. *)
Inductive member (V : Type) : Type :=
| Value (v : V)
| FromPrototype (name : string)
| NoValue.
Arguments Value {V} v.
Arguments FromPrototype {V} name.
Arguments NoValue {V}.

(** [o[k]], looked up along the prototype chain. *)
Definition index {V} (k : string) (o : object V) : member V :=
  match prop k o with
  | Some v => Value v
  | None =>
      if existsb (String.eqb k) prototypeNames then FromPrototype k
      else NoValue
  end.

End Js.

(* ================================================================== *)
(** * [constants.js] (src/unnamed/part_000) *)
(* ================================================================== *)

Module BR.

Definition SYSTEM_ID : string := "blade-runner".

Definition DIE_SCORES : Js.object Z :=
  Js.literal [("A", 12); ("B", 10); ("C", 8); ("D", 6)]%Z.

Module ATTRIBUTES.
Definition STRENGTH : string := "str".
Definition AGILITY : string := "agi".
Definition INTELLIGENCE : string := "int".
Definition EMPATHY : string := "emp".
Definition VEHICLE_MANEUVERABILITY : string := "mvr".
Definition enum : Js.object string :=
  Js.literal
    [("STRENGTH", STRENGTH); ("AGILITY", AGILITY);
     ("INTELLIGENCE", INTELLIGENCE); ("EMPATHY", EMPATHY);
     ("VEHICLE_MANEUVERABILITY", VEHICLE_MANEUVERABILITY)].
End ATTRIBUTES.

Module SKILLS.
Definition FORCE : string := "force".
Definition CLOSE_COMBAT : string := "closeCombat".
Definition STAMINA : string := "stamina".
Definition FIREARMS : string := "firearms".
Definition MOBILITY : string := "mobility".
Definition STEALTH : string := "stealth".
Definition MEDICAL_AID : string := "medicalAid".
Definition OBSERVATION : string := "observation".
Definition TECH : string := "tech".
Definition DRIVING : string := "driving".
Definition CONNECTIONS : string := "connections".
Definition INSIGHT : string := "insight".
Definition MANIPULATION : string := "manipulation".
Definition enum : Js.object string :=
  Js.literal
    [("FORCE", FORCE); ("CLOSE_COMBAT", CLOSE_COMBAT);
     ("STAMINA", STAMINA); ("FIREARMS", FIREARMS);
     ("MOBILITY", MOBILITY); ("STEALTH", STEALTH);
     ("MEDICAL_AID", MEDICAL_AID); ("OBSERVATION", OBSERVATION);
     ("TECH", TECH); ("DRIVING", DRIVING);
     ("CONNECTIONS", CONNECTIONS); ("INSIGHT", INSIGHT);
     ("MANIPULATION", MANIPULATION)].
End SKILLS.

Module CAPACITIES.
Definition HEALTH : string := "health".
Definition RESOLVE : string := "resolve".
End CAPACITIES.

Module NATURES.
Definition HUMAN : string := "human".
Definition REPLICANT : string := "replicant".
End NATURES.

Module SETTINGS_KEYS.
Definition DISPLAYED_MESSAGES : string := "messages".
End SETTINGS_KEYS.

Module COMBAT_ACTIONS.
Definition SPRINT : string := "action-sprint".
Definition CRAWL : string := "action-crawl".
Definition UNARMED_ATTACK : string := "action-unarmed-attack".
Definition MELEE_ATTACK : string := "action-melee-attack".
Definition GRAPPLE : string := "action-grapple".
Definition BREAK_FREE : string := "action-break-free".
Definition SHOOT_FIREARM : string := "action-shoot-firearm".
Definition CAREFUL_AIM : string := "action-careful-aim".
Definition THROW_WEAPON : string := "action-throw-weapon".
Definition FIRST_AID : string := "action-first-aid".
Definition MANIPULATE : string := "action-manipulate".
Definition USE_ITEM : string := "action-use-item".
Definition enum : Js.object string :=
  Js.literal
    [("SPRINT", SPRINT); ("CRAWL", CRAWL);
     ("UNARMED_ATTACK", UNARMED_ATTACK); ("MELEE_ATTACK", MELEE_ATTACK);
     ("GRAPPLE", GRAPPLE); ("BREAK_FREE", BREAK_FREE);
     ("SHOOT_FIREARM", SHOOT_FIREARM); ("CAREFUL_AIM", CAREFUL_AIM);
     ("THROW_WEAPON", THROW_WEAPON); ("FIRST_AID", FIRST_AID);
     ("MANIPULATE", MANIPULATE); ("USE_ITEM", USE_ITEM)].
End COMBAT_ACTIONS.

Module ACTOR_TYPES.
Definition CHAR : string := "character".
Definition VEHICLE : string := "vehicle".
Definition LOOT : string := "loot".
End ACTOR_TYPES.

Module ACTOR_SUBTYPES.
Definition PC : string := "pc".
Definition NPC : string := "npc".
End ACTOR_SUBTYPES.

Module ITEM_TYPES.
Definition GENERIC : string := "generic".
Definition SYNTHETIC_AUGMENTATION : string := "upgrade".
Definition ARMOR : string := "armor".
Definition WEAPON : string := "weapon".
Definition EXPLOSIVE : string := "explosive".
Definition SPECIALTY : string := "specialty".
Definition CRITICAL_INJURY : string := "injury".
Definition enum : Js.object string :=
  Js.literal
    [("GENERIC", GENERIC);
     ("SYNTHETIC_AUGMENTATION", SYNTHETIC_AUGMENTATION);
     ("ARMOR", ARMOR); ("WEAPON", WEAPON); ("EXPLOSIVE", EXPLOSIVE);
     ("SPECIALTY", SPECIALTY); ("CRITICAL_INJURY", CRITICAL_INJURY)].
End ITEM_TYPES.

End BR.

(* ================================================================== *)
(** * [config.js]: the [FLBR] configuration object *)
(* ================================================================== *)

Module FLBR.

(** [FLBR.scoreMap = new Map(); scoreMap.set('–', 0);
     for (const score in BR.DIE_SCORES) scoreMap.set(score, DIE_SCORES[score])] *)
Definition scoreMap : @Js.table string Z :=
  fold_left
    (fun m score =>
       match Js.prop score BR.DIE_SCORES with
       | Some v => Js.set String.eqb score v m
       | None => m
       end)
    (Js.keys BR.DIE_SCORES)
    (Js.set String.eqb "–" 0%Z []).

(** [new Map(Array.from(FLBR.scoreMap, ([n, v]) => [v, n]))] *)
Definition dieMap : @Js.table Z string :=
  Js.from_entries Z.eqb (map (fun nv => (snd nv, fst nv)) scoreMap).

Definition vehicleAttribute : string :=
  BR.ATTRIBUTES.VEHICLE_MANEUVERABILITY.

(** [Object.values(BR.ATTRIBUTES).filter(v => v !== FLBR.vehicleAttribute)] *)
Definition attributes : list string :=
  filter (fun v => negb (v =? vehicleAttribute))
         (Js.values BR.ATTRIBUTES.enum).

Definition skillMap : Js.object string :=
  Js.literal
    [(BR.SKILLS.CLOSE_COMBAT, BR.ATTRIBUTES.STRENGTH);
     (BR.SKILLS.FORCE, BR.ATTRIBUTES.STRENGTH);
     (BR.SKILLS.STAMINA, BR.ATTRIBUTES.STRENGTH);
     (BR.SKILLS.FIREARMS, BR.ATTRIBUTES.AGILITY);
     (BR.SKILLS.MOBILITY, BR.ATTRIBUTES.AGILITY);
     (BR.SKILLS.STEALTH, BR.ATTRIBUTES.AGILITY);
     (BR.SKILLS.MEDICAL_AID, BR.ATTRIBUTES.INTELLIGENCE);
     (BR.SKILLS.OBSERVATION, BR.ATTRIBUTES.INTELLIGENCE);
     (BR.SKILLS.TECH, BR.ATTRIBUTES.INTELLIGENCE);
     (BR.SKILLS.CONNECTIONS, BR.ATTRIBUTES.EMPATHY);
     (BR.SKILLS.INSIGHT, BR.ATTRIBUTES.EMPATHY);
     (BR.SKILLS.MANIPULATION, BR.ATTRIBUTES.EMPATHY);
     (BR.SKILLS.DRIVING, BR.ATTRIBUTES.VEHICLE_MANEUVERABILITY)].

(** [Object.keys(FLBR.skillMap)] *)
Definition skills : list string := Js.keys skillMap.

Record capacity : Type := { cap_attributes : list string; cap_max : Z }.

Definition capacitiesMap : Js.object capacity :=
  Js.literal
    [(BR.CAPACITIES.HEALTH,
      {| cap_attributes := [BR.ATTRIBUTES.STRENGTH; BR.ATTRIBUTES.AGILITY];
         cap_max := 10 |});
     (BR.CAPACITIES.RESOLVE,
      {| cap_attributes := [BR.ATTRIBUTES.INTELLIGENCE; BR.ATTRIBUTES.EMPATHY];
         cap_max := 10 |})].

Definition maxPushMap : Js.object Z :=
  Js.literal [(BR.NATURES.HUMAN, 1%Z); (BR.NATURES.REPLICANT, 2%Z)].

Definition pushTraumaMap : Js.object (Js.object string) :=
  Js.literal
    [(BR.NATURES.HUMAN,
      Js.literal
        [(BR.ATTRIBUTES.STRENGTH, BR.CAPACITIES.HEALTH);
         (BR.ATTRIBUTES.AGILITY, BR.CAPACITIES.HEALTH);
         (BR.ATTRIBUTES.INTELLIGENCE, BR.CAPACITIES.RESOLVE);
         (BR.ATTRIBUTES.EMPATHY, BR.CAPACITIES.RESOLVE)]);
     (BR.NATURES.REPLICANT,
      Js.literal
        [(BR.ATTRIBUTES.STRENGTH, BR.CAPACITIES.RESOLVE);
         (BR.ATTRIBUTES.AGILITY, BR.CAPACITIES.RESOLVE);
         (BR.ATTRIBUTES.INTELLIGENCE, BR.CAPACITIES.RESOLVE);
         (BR.ATTRIBUTES.EMPATHY, BR.CAPACITIES.RESOLVE)])].

(** [FLBR.pushTraumaMap[nature][attribute]] *)
Definition pushTrauma (nature attribute : string) : option string :=
  match Js.prop nature pushTraumaMap with
  | Some row => Js.prop attribute row
  | None => None
  end.

(** The capacity whose [attributes] list in [FLBR.capacitiesMap] holds the
    attribute: the capacity that governs it. *)
Definition governingCapacity (attribute : string) : option string :=
  match
    find (fun e => existsb (String.eqb attribute) (cap_attributes (snd e)))
         capacitiesMap
  with
  | Some e => Some (fst e)
  | None => None
  end.

Definition natures : Js.object string :=
  Js.literal
    [(BR.NATURES.HUMAN, "FLBR.NATURE.Human");
     (BR.NATURES.REPLICANT, "FLBR.NATURE.Replicant")].

Definition natureModifierMap : Js.object (Js.object Z) :=
  Js.literal
    [(BR.NATURES.HUMAN,
      Js.literal [(BR.CAPACITIES.HEALTH, 0%Z); (BR.CAPACITIES.RESOLVE, 0%Z)]);
     (BR.NATURES.REPLICANT,
      Js.literal
        [(BR.CAPACITIES.HEALTH, 2%Z); (BR.CAPACITIES.RESOLVE, (-2)%Z)])].

(** [FLBR.natureModifierMap[nature][capacity]] *)
Definition natureModifier (nature capacity : string) : option Z :=
  match Js.prop nature natureModifierMap with
  | Some row => Js.prop capacity row
  | None => None
  end.

(** An entry of [FLBR.actionSkillMap]: [skill] is a skill key, ['any'] or
    [null]. *)
Record action : Type := { label : string; skill : Js.value }.

Definition actionSkillMap : Js.object action :=
  Js.literal
    [(BR.COMBAT_ACTIONS.SPRINT,
      {| label := "FLBR.CombatAction.Sprint";
         skill := Js.Str BR.SKILLS.MOBILITY |});
     (BR.COMBAT_ACTIONS.CRAWL,
      {| label := "FLBR.CombatAction.Crawl"; skill := Js.Null |});
     (BR.COMBAT_ACTIONS.UNARMED_ATTACK,
      {| label := "FLBR.CombatAction.UnarmedAttack";
         skill := Js.Str BR.SKILLS.CLOSE_COMBAT |});
     (BR.COMBAT_ACTIONS.MELEE_ATTACK,
      {| label := "FLBR.CombatAction.MeleeAttack";
         skill := Js.Str BR.SKILLS.CLOSE_COMBAT |});
     (BR.COMBAT_ACTIONS.GRAPPLE,
      {| label := "FLBR.CombatAction.Grapple";
         skill := Js.Str BR.SKILLS.CLOSE_COMBAT |});
     (BR.COMBAT_ACTIONS.BREAK_FREE,
      {| label := "FLBR.CombatAction.BreakFree";
         skill := Js.Str BR.SKILLS.CLOSE_COMBAT |});
     (BR.COMBAT_ACTIONS.SHOOT_FIREARM,
      {| label := "FLBR.CombatAction.ShootFirearm";
         skill := Js.Str BR.SKILLS.FIREARMS |});
     (BR.COMBAT_ACTIONS.CAREFUL_AIM,
      {| label := "FLBR.CombatAction.CarefulAim"; skill := Js.Null |});
     (BR.COMBAT_ACTIONS.THROW_WEAPON,
      {| label := "FLBR.CombatAction.ThrowWeapon";
         skill := Js.Str BR.SKILLS.FIREARMS |});
     (BR.COMBAT_ACTIONS.FIRST_AID,
      {| label := "FLBR.CombatAction.FirstAid";
         skill := Js.Str BR.SKILLS.MEDICAL_AID |});
     (BR.COMBAT_ACTIONS.MANIPULATE,
      {| label := "FLBR.CombatAction.Manipulate";
         skill := Js.Str BR.SKILLS.MANIPULATION |});
     (BR.COMBAT_ACTIONS.USE_ITEM,
      {| label := "FLBR.CombatAction.UseItem"; skill := Js.Str "any" |})].

Definition deathSaveTest : string := BR.SKILLS.STAMINA.
Definition baselineTest : string := BR.SKILLS.INSIGHT.

Definition physicalItems : list string :=
  [BR.ITEM_TYPES.GENERIC; BR.ITEM_TYPES.WEAPON; BR.ITEM_TYPES.ARMOR;
   BR.ITEM_TYPES.EXPLOSIVE].

Record blast : Type := { damage : Z; crit : Z }.

(** The keys of this literal are written as numbers; property names are
    strings, so they are the decimal spellings. *)
Definition blastPowerMap : Js.object blast :=
  Js.literal
    [("12", {| damage := 4; crit := 12 |});
     ("10", {| damage := 3; crit := 10 |});
     ("8", {| damage := 2; crit := 8 |});
     ("6", {| damage := 1; crit := 6 |})].

(** [FLBR.blastPowerMap[power]] for a number [power]: the property name
    is the number written in decimal. *)
Definition blastPower (power : Z) : option blast :=
  Js.prop (NilEmpty.string_of_int (Z.to_int power)) blastPowerMap.

End FLBR.


(* ================================================================== *)
(** * [item-document.js]: [BladeRunnerItem] *)
(* ================================================================== *)

Module Item.

(** [String.prototype.toUpperCase] on the ASCII letters. *)
Definition upperChar (c : ascii) : ascii :=
  let n := nat_of_ascii c in
  if (97 <=? n)%nat && (n <=? 122)%nat then ascii_of_nat (n - 32) else c.

Fixpoint toUpperCase (s : string) : string :=
  match s with
  | EmptyString => EmptyString
  | String c s' => String (upperChar c) (toUpperCase s')
  end.

(** A number inside a template literal. *)
Definition showNumber (z : Z) : string :=
  NilEmpty.string_of_int (Z.to_int z).

(** A string used as a condition: the empty string is falsy. *)
Definition truthyKey (k : option string) : bool :=
  match k with
  | Some s => Js.truthy (Js.Str s)
  | None => false
  end.

(** A completed call: a returned value or a thrown error. *)
Inductive completion (A : Type) : Type :=
| Return (a : A)
| Throw (error : string).
Arguments Return {A} a.
Arguments Throw {A} error.

Section Host.

(** [game.i18n.localize], the host's translation lookup. *)
Variable localize : string -> string.
(** [capitalize] of [@utils/string-util], which is not among the
    sources; it only feeds the title. *)
Variable capitalize : string -> string.
(** The [Modifier] class of [@system/modifier]; [roll] only passes
    modifiers on. *)
Variable Modifier : Type.

(** The part of the owning actor document that [roll] calls. *)
Record Actor : Type := {
  nature : string;
  getAttribute : string -> Js.value;
  getSkill : option string -> Js.value;
  getRollModifiers : list string -> list Modifier
}.

(** [this.data.data] *)
Record Props : Type := {
  qty : Z;
  rollable : Js.value;
  attribute : option string;
  skill : option string
}.

Record t : Type := {
  name : string;
  props : Props;
  actor : option Actor
}.

(** [get rollable() { return !!(this.props.rollable ?? false); }] *)
Definition is_rollable (item : t) : bool :=
  Js.truthy (Js.nullish (rollable (props item)) (Js.Boolean false)).

(** [get detailedName()] *)
Definition detailedName (item : t) : string :=
  let str := name item in
  if (1 <? qty (props item))%Z
  then str ++ " (" ++ showNumber (qty (props item)) ++ ")"
  else str.

(** The options object given to [new BRRollHandler({...})]. *)
Record RollOptions : Type := {
  ro_title : string;
  ro_actor : Actor;
  ro_attributeKey : string;
  ro_skillKey : option string;
  ro_dice : list Js.value;
  ro_items : list t;
  ro_modifiers : list Modifier;
  ro_maxPush : option Z
}.

(** The roll handlers rendered so far: the only state [roll] touches. *)
Definition Rendered : Type := list RollOptions.

(** [roll()].  A bare [return] gives [Return None]; reading
    [attributeKey.toUpperCase()] of a missing key throws. *)
Definition roll (item : t) (apps : Rendered)
  : completion (option RollOptions) * Rendered :=
  if negb (is_rollable item) then (Return None, apps) else
  match actor item with
  | None => (Return None, apps)
  | Some act =>
    let skillKey := skill (props item) in
    match attribute (props item) with
    | None => (Throw "TypeError", apps)
    | Some attributeKey =>
      let attributeName :=
        localize ("FLBR.ATTRIBUTE." ++ toUpperCase attributeKey) in
      let title :=
        detailedName item ++ " (" ++ attributeName ++
        (match skillKey with
         | Some k =>
             if truthyKey skillKey
             then " & " ++ localize ("FLBR.SKILL." ++ capitalize k)
             else EmptyString
         | None => EmptyString
         end) ++ ")" in
      let attributeValue := getAttribute act attributeKey in
      let skillValue := getSkill act skillKey in
      let targets :=
        ([attributeKey] ++
         (match skillKey with
          | Some k => if truthyKey skillKey then [k] else []
          | None => []
          end))%list in
      let dice :=
        ((if Js.truthy attributeValue then [attributeValue] else []) ++
         (if Js.truthy skillValue then [skillValue] else []))%list in
      let roller :=
        {| ro_title := title;
           ro_actor := act;
           ro_attributeKey := attributeKey;
           ro_skillKey := skillKey;
           ro_dice := dice;
           ro_items := [item];
           ro_modifiers := getRollModifiers act targets;
           ro_maxPush := Js.prop (nature act) FLBR.maxPushMap |} in
      (Return (Some roller), (apps ++ [roller])%list)
    end
  end.

End Host.

Arguments nature {Modifier} _.
Arguments getAttribute {Modifier} _ _.
Arguments getSkill {Modifier} _ _.
Arguments getRollModifiers {Modifier} _ _.
Arguments name {Modifier} _.
Arguments props {Modifier} _.
Arguments actor {Modifier} _.
Arguments ro_title {Modifier} _.
Arguments ro_dice {Modifier} _.
Arguments ro_maxPush {Modifier} _.
Arguments ro_items {Modifier} _.
Arguments ro_actor {Modifier} _.
Arguments is_rollable {Modifier} _.
Arguments detailedName {Modifier} _.
Arguments roll _ _ {Modifier} _ _.

End Item.

(* ================================================================== *)
(** * The roll handler's push action *)
(* ================================================================== *)

Module Roller.

(** Modelled from the spec: [BRRollHandler] ([src/components/roll/roller])
    and the dice library behind it are not among the sources.  Section 4.1
    of the specification describes the push action: it "re-evaluates only
    dice that did not show a success face, decrementing remaining push
    count", the push affordance exists "while push count > 0", and
    "pushing beyond the maximum push count is rejected silently".  Which
    faces count as a success is left to [success]; the faces that come up
    on a reroll are read from [fresh]. *)
Record Die : Type := { size : Z; face : Z }.

Record Roll : Type := { results : list Die; pushesLeft : Z }.

Section Push.
Variable success : Die -> bool.

Fixpoint reroll (ds : list Die) (fresh : list Z) : list Die :=
  match ds with
  | [] => []
  | d :: ds' =>
      if success d then d :: reroll ds' fresh
      else match fresh with
           | [] => d :: reroll ds' []
           | f :: fresh' =>
               {| size := size d; face := f |} :: reroll ds' fresh'
           end
  end.

Definition push (fresh : list Z) (r : Roll) : Roll :=
  if (0 <? pushesLeft r)%Z
  then {| results := reroll (results r) fresh;
          pushesLeft := (pushesLeft r - 1)%Z |}
  else r.
End Push.

End Roller.

(* ================================================================== *)
(** * The host's version comparison and the system's range comparator *)
(* ================================================================== *)

Module Version.

(** [s.split(sep)] for a one-character separator. *)
Fixpoint split (sep : ascii) (s : string) : list string :=
  match s with
  | EmptyString => [EmptyString]
  | String c s' =>
      if Ascii.eqb c sep then EmptyString :: split sep s'
      else match split sep s' with
           | [] => [String c EmptyString]
           | p :: ps => String c p :: ps
           end
  end.

Definition isDigit (c : ascii) : bool :=
  let n := nat_of_ascii c in (48 <=? n)%nat && (n <=? 57)%nat.

Fixpoint decimal (acc : N) (s : string) : option N :=
  match s with
  | EmptyString => Some acc
  | String c s' =>
      if isDigit c
      then decimal (10 * acc + (N_of_ascii c - 48))%N s'
      else None
  end.

(** A version part read as a number: [Some n] for a non-empty string of
    decimal digits, the only numeric spelling version strings use;
    [None] stands for "not numeric". *)
Definition numeric (s : string) : option N :=
  match s with
  | EmptyString => None
  | _ => decimal 0%N s
  end.

Fixpoint equals (xs ys : list string) : bool :=
  match xs, ys with
  | [], [] => true
  | x :: xs', y :: ys' => (x =? y) && equals xs' ys'
  | _, _ => false
  end.

(** The loop of [foundry.utils.isNewerVersion] over the parts of [v1];
    [Some b] when the loop returns [b], [None] when it runs to its end. *)
Fixpoint newerParts (v1Parts v0Parts : list string) : option bool :=
  match v1Parts with
  | [] => None
  | p1 :: r1 =>
      match v0Parts with
      | [] => Some true
      | p0 :: r0 =>
          let byNumber :=
            match numeric p0, numeric p1 with
            | Some n0, Some n1 =>
                if negb (n1 =? n0)%N then Some (n0 <? n1)%N else None
            | _, _ => None
            end in
          match byNumber with
          | Some b => Some b
          | None =>
              if negb (p1 =? p0) then Some (String.ltb p0 p1)
              else newerParts r1 r0
          end
      end
  end.

(** [foundry.utils.isNewerVersion(v1, v0)]: a helper of the host
    application, outside this repository, called by [isCurrent].  It is
    written here after the host's implementation for string arguments:
    both versions are split at the dots, the parts are compared from the
    left (as numbers when both are numeric, as strings otherwise), a
    version that runs out of parts first is the older one, and two equal
    versions are not newer than one another. *)
Definition isNewerVersion (v1 v0 : string) : bool :=
  let v1Parts := split "." v1 in
  let v0Parts := split "." v0 in
  match newerParts v1Parts v0Parts with
  | Some b => b
  | None =>
      if (List.length v1Parts <? List.length v0Parts)%nat then false
      else negb (equals v1Parts v0Parts)
  end.

(** Modelled from the spec: [semverComp] of [@utils/semver-compare] is not
    among the sources.  Section 4.2 of the specification calls it a
    "standard semantic-version range comparison (inclusive lower bound,
    exclusive upper bound)" done by "a custom comparator with a
    configurable inclusive-lower option" (the [gEqMin] option [isCurrent]
    passes).  A semantic version is MAJOR.MINOR.PATCH, three numbers
    compared from the left; a string that is not one is in no range. *)
Definition semver : Type := (N * N * N)%type.

Definition parseSemver (s : string) : option semver :=
  match map numeric (split "." s) with
  | [Some major; Some minor; Some patch] => Some (major, minor, patch)
  | _ => None
  end.

Definition semver_compare (x y : semver) : comparison :=
  let '(x1, x2, x3) := x in
  let '(y1, y2, y3) := y in
  match (x1 ?= y1)%N with
  | Eq => match (x2 ?= y2)%N with
          | Eq => (x3 ?= y3)%N
          | c => c
          end
  | c => c
  end.

Definition semver_ltb (x y : semver) : bool :=
  match semver_compare x y with Lt => true | _ => false end.

Definition semver_leb (x y : semver) : bool :=
  match semver_compare x y with Gt => false | _ => true end.

Definition semverComp (min curr max : string) (gEqMin : bool) : bool :=
  match parseSemver min, parseSemver curr, parseSemver max with
  | Some lo, Some c, Some hi =>
      (if gEqMin then semver_leb lo c else semver_ltb lo c)
      && semver_ltb c hi
  | _, _, _ => false
  end.


(** [isNewerVersion] on the two lists of parts. *)
Definition newerThan (v1Parts v0Parts : list string) : bool :=
  match newerParts v1Parts v0Parts with
  | Some b => b
  | None =>
      if (List.length v1Parts <? List.length v0Parts)%nat then false
      else negb (equals v1Parts v0Parts)
  end.

End Version.

(* ================================================================== *)
(** * The message-display module *)
(* ================================================================== *)

Module Messages.

(** A record of the message catalog [messages.jsonc]. *)
Record Message : Type := {
  display : Js.value;
  title : string;
  content : string;
  type : Js.value;
  min_core_version : option string;
  max_core_version : option string;
  min_sys_version : option string;
  max_sys_version : option string
}.

(** What the module reads of the host's [game] object. *)
Record Game : Type := {
  version : string;
  system_version : string;
  user_name : string;
  user_id : string
}.

(** An open [Dialog.prompt]; [dlg_callback] is the identifier its
    callback [() => setDisplayed(title)] records on confirmation. *)
Record Dialog : Type := {
  dlg_title : string;
  dlg_content : string;
  dlg_label : string;
  dlg_callback : string
}.

Record ChatMessage : Type := {
  cm_whisper : list string;
  cm_alias : string;
  cm_title : string;
  cm_content : string
}.

(** The host state the module reads and writes: the persisted
    [DISPLAYED_MESSAGES] setting (an array of titles), the open prompts
    and the chat log.  A [game.settings.set] is taken to be complete when
    the next statement runs. *)
Record Host : Type := {
  settings : list string;
  dialogs : list Dialog;
  chatLog : list ChatMessage
}.

(** The double-quote character of the markup strings. *)
Definition quote : string := String (ascii_of_nat 34) EmptyString.

(** Line terminators, which [.] in a regular expression does not match. *)
Definition lineTerminator (c : ascii) : bool :=
  let n := nat_of_ascii c in (n =? 10)%nat || (n =? 13)%nat.

(** The global [data.replace(regexp, '')] of [stripJSON]: every match of
    the pattern, found from the left, is one character other than a colon,
    then two slashes, then the rest of the line.  [inComment] is set while
    the rest of the line is consumed. *)
Fixpoint strip (inComment : bool) (s : string) : string :=
  match s with
  | EmptyString => EmptyString
  | String c rest =>
      if inComment && negb (lineTerminator c) then strip true rest
      else
        match rest with
        | String "/" (String "/" rest') =>
            if negb (Ascii.eqb c ":") then strip true rest'
            else String c (strip false rest)
        | _ => String c (strip false rest)
        end
  end.

Definition stripJSON (data : string) : string := strip false data.

Fixpoint drop (n : nat) (s : string) : string :=
  match n, s with
  | S n', String _ s' => drop n' s'
  | _, _ => s
  end.

(** [s.replace(pattern, replacement)] for a string pattern: the first
    occurrence only. *)
Fixpoint replace (pattern replacement s : string) : string :=
  if String.prefix pattern s
  then replacement ++ drop (String.length pattern) s
  else match s with
       | EmptyString => EmptyString
       | String c s' => String c (replace pattern replacement s')
       end.

(** [settings?.includes(identifier)] *)
Definition hasDisplayed (h : Host) (identifier : string) : bool :=
  if existsb (String.eqb identifier) (settings h) then true else false.

(** [settings.push(identifier)] and [game.settings.set(..., settings.flat())];
    titles are strings, which [flat] leaves in place. *)
Definition setDisplayed (identifier : string) (h : Host) : Host :=
  {| settings := (settings h ++ [identifier])%list;
     dialogs := dialogs h;
     chatLog := chatLog h |}.

Section Display.

Variable game : Game.
(** [game.i18n.localize] *)
Variable localize : string -> string.
(** [JSON.parse] applied to the catalog text: [None] when it throws a
    syntax error, the array of records otherwise. *)
Variable JSON_parse : string -> option (list Message).

(** The three constants of [isCurrent]. *)
Definition isDisplayable (h : Host) (msg : Message) : bool :=
  Js.strict_eq (Js.not (display msg)) (Js.Str "once")
  || negb (hasDisplayed h (title msg)).

Definition correctCoreVersion (msg : Message) : bool :=
  Version.isNewerVersion
    (Js.default (max_core_version msg) "100.0.0") (version game)
  && Version.isNewerVersion
       (version game) (Js.default (min_core_version msg) "0.0.0").

Definition correctSysVersion (msg : Message) : bool :=
  Version.semverComp
    (Js.default (min_sys_version msg) "0.0.0")
    (system_version game)
    (Js.default (max_sys_version msg) "100.0.0")
    true.

Definition isCurrent (h : Host) (msg : Message) : bool :=
  isDisplayable h msg && correctCoreVersion msg && correctSysVersion msg.

Definition displayPrompt (title content : string) (h : Host) : Host :=
  let content := replace "{name}" (user_name game) content in
  {| settings := settings h;
     dialogs :=
       (dialogs h ++
        [{| dlg_title := title;
            dlg_content :=
              "<img src=" ++ quote ++ "systems/" ++ BR.SYSTEM_ID ++
              "/assets/bladerunner-banner-small.webp" ++ quote ++ "/>"
              ++ content;
            dlg_label := "Understood!";
            dlg_callback := title |}])%list;
     chatLog := chatLog h |}.

Definition sendToChat (title content : string) (h : Host) : Host :=
  let content := replace "{name}" (user_name game) content in
  let h := setDisplayed title h in
  let footer :=
    "<footer class=" ++ quote ++ "nue" ++ quote ++ ">"
    ++ localize "NUE.FirstLaunchHint" ++ "</footer>" in
  {| settings := settings h;
     dialogs := dialogs h;
     chatLog :=
       (chatLog h ++
        [{| cm_whisper := [user_id game];
            cm_alias := "Blade Runner RPG";
            cm_title := title;
            cm_content :=
              "<div class=" ++ quote ++ "chat-card" ++ quote
              ++ "><h3 class=" ++ quote ++ "nue" ++ quote ++ ">"
              ++ title ++ "</h3>" ++ content ++ footer ++ "</div>" |}])%list |}.

Definition handleDisplay (msg : Message) (h : Host) : Host :=
  if negb (isCurrent h msg) then h
  else if Js.strict_eq (type msg) (Js.Str "prompt")
  then displayPrompt (title msg) (content msg) h
  else if Js.strict_eq (type msg) (Js.Str "chat")
  then sendToChat (title msg) (content msg) h
  else h.

(** How the promise returned by [displayMessages] settles. *)
Inductive settled : Type := Fulfilled | Rejected.

(** [displayMessages()]; [fetched] is the text of the fetched catalog,
    [None] when the fetch itself fails. *)
Definition displayMessages (fetched : option string) (h : Host)
  : settled * Host :=
  match fetched with
  | None => (Rejected, h)
  | Some jsonc =>
      match JSON_parse (stripJSON jsonc) with
      | None => (Rejected, h)
      | Some messages =>
          (Fulfilled, fold_left (fun h msg => handleDisplay msg h) messages h)
      end
  end.

(** The user confirms an open prompt: its callback runs. *)
Definition confirmPrompt (d : Dialog) (h : Host) : Host :=
  setDisplayed (dlg_callback d) h.

End Display.

(** Two slashes at the start of [s]. *)
Definition slashes (s : string) : bool :=
  match s with
  | String c1 (String c2 _) => Ascii.eqb c1 "/" && Ascii.eqb c2 "/"
  | _ => false
  end.

(** A match of the pattern of [stripJSON] at the start of [s]: a character
    other than a colon, then two slashes. *)
Definition commentAt (s : string) : bool :=
  match s with
  | String c rest => negb (Ascii.eqb c ":") && slashes rest
  | EmptyString => false
  end.

(** The first character of a string, tested. *)
Definition headIs (test : ascii -> bool) (s : string) : bool :=
  match s with
  | EmptyString => false
  | String c _ => test c
  end.

(** A match of the pattern of [stripJSON] somewhere in [s]. *)
Fixpoint hasComment (s : string) : bool :=
  commentAt s ||
  match s with
  | EmptyString => false
  | String _ s' => hasComment s'
  end.

(** One display pass over an already parsed catalog: the [forEach] of
    [displayMessages]. *)
Definition displayAll (game : Game) (localize : string -> string)
    (messages : list Message) (h : Host) : Host :=
  fold_left (fun h msg => handleDisplay game localize msg h) messages h.

(** A step that has nothing to show: the message is not current, or its
    type is neither prompt nor chat. *)
Definition silent (game : Game) (h : Host) (msg : Message) : Prop :=
  isCurrent game h msg = false
  \/ (Js.strict_eq (type msg) (Js.Str "prompt") = false
      /\ Js.strict_eq (type msg) (Js.Str "chat") = false).

End Messages.

(* ================================================================== *)
(** * [character-sheet.js]: [BladeRunnerCharacterSheet] *)
(* ================================================================== *)

Module CharacterSheet.

(** What the sheet reads of [game.user], of itself and of its actor. *)
Record Context : Type := {
  isGM : bool;
  limited : bool;
  isEditable : bool;
  subtype : Js.value;
  resolve_value : Z
}.

(** [game.system.id || SYSTEM_ID] *)
Definition sysId (gameSystemId : option string) : string :=
  match gameSystemId with
  | Some id => if Item.truthyKey gameSystemId then id else BR.SYSTEM_ID
  | None => BR.SYSTEM_ID
  end.

(** [get template()] *)
Definition template (gameSystemId : option string) (c : Context) : string :=
  let sysId := sysId gameSystemId in
  if negb (isGM c) && limited c
  then "systems/" ++ sysId ++ "/templates/actor/" ++ BR.ACTOR_TYPES.CHAR
       ++ "/" ++ BR.ACTOR_TYPES.CHAR ++ "-limited-sheet.hbs"
  else "systems/" ++ sysId ++ "/templates/actor/" ++ BR.ACTOR_TYPES.CHAR
       ++ "/" ++ BR.ACTOR_TYPES.CHAR ++ "-sheet.hbs".

(** The part of [getData] this class adds to the data of its parent. *)
Definition isPC (c : Context) : bool :=
  Js.strict_eq (subtype c) (Js.Str BR.ACTOR_SUBTYPES.PC).

Definition isNPC (c : Context) : bool :=
  Js.strict_eq (subtype c) (Js.Str BR.ACTOR_SUBTYPES.NPC).

Inductive handler : Type := OnStatRoll | OnActionRoll | OnResolveDecrease.

Record listener : Type := {
  selector : string;
  event : string;
  handle : handler
}.

(** The listeners [activateListeners] binds itself, after those of its
    parent class. *)
Definition activateListeners (c : Context) : list listener :=
  if negb (isGM c) && limited c then []
  else if negb (isEditable c) then []
  else [ {| selector := ".stat-roll"; event := "click";
            handle := OnStatRoll |};
         {| selector := ".action-roll"; event := "click";
            handle := OnActionRoll |};
         {| selector := ".capacity-resolve .capacity-boxes";
            event := "contextmenu"; handle := OnResolveDecrease |} ].

(** The arguments of a call [this.actor.rollStat(attrKey, skillKey, { title })]. *)
Record rollStat : Type := {
  rs_attribute : Js.member string;
  rs_skill : option string;
  rs_title : option string
}.

(** [_onStatRoll]: the data attributes of the clicked element are passed
    on. *)
Definition onStatRoll (dataAttribute dataSkill : option string) : rollStat :=
  {| rs_attribute :=
       match dataAttribute with
       | Some attrKey => Js.Value attrKey
       | None => Js.NoValue
       end;
     rs_skill := dataSkill;
     rs_title := None |}.

Section Handlers.
(** [game.i18n.localize] and the host's [String.prototype.capitalize]. *)
Variable localize : string -> string.
Variable capitalize : string -> string.

(** [_onActionRoll]: without a [data-skill], [skillKey.capitalize()]
    throws; [FLBR.skillMap[skillKey]] is looked up along the prototype
    chain. *)
Definition onActionRoll (innerText : string) (dataSkill : option string)
  : Item.completion rollStat :=
  match dataSkill with
  | None => Item.Throw "TypeError"
  | Some skillKey =>
      let attrKey := Js.index skillKey FLBR.skillMap in
      let title :=
        innerText ++ " (" ++ localize ("FLBR.SKILL." ++ capitalize skillKey)
        ++ ")" in
      Item.Return {| rs_attribute := attrKey; rs_skill := Some skillKey;
                     rs_title := Some title |}
  end.
End Handlers.

(** [_onResolveDecrease]: whether [this.actor.rollResolve()] is called. *)
Definition onResolveDecrease (c : Context) : bool :=
  if negb (Js.strict_eq (subtype c) (Js.Str BR.ACTOR_SUBTYPES.PC)) then false
  else if (1 <? resolve_value c)%Z then false
  else true.

End CharacterSheet.

(* ================================================================== *)
(** * [gulpfile.js]: the build and release tasks *)
(* ================================================================== *)

Module Gulp.

Definition sourceDirectory : string := "./src".
Definition distDirectory : string := "./dist".
Definition staticFiles : list string :=
  ["lib"; "assets"; "fonts"; "scripts"; "system.json"; "template.json";
   "LICENSE"].

Definition getDownloadURL (version : string) : string :=
  "https://github.com/fvtt-fria-ligan/blade-runner-foundry-vtt/releases/download/v"
  ++ version ++ "/blade-runner-fvtt_v" ++ version ++ ".zip".

(** The destination [pipeTemplates] copies a template file to. *)
Definition templateDestination (file : string) : string :=
  distDirectory ++ "/templates/"
  ++ Messages.replace "templates/" EmptyString
       (Messages.replace (sourceDirectory ++ "/") EmptyString file).

(** [pipeTemplates]: the copies made, source and destination. *)
Definition pipeTemplates (templateFiles : list string)
  : list (string * string) :=
  map (fun file => (file, templateDestination file)) templateFiles.

(** [pipeStatics]: the copies made, given which paths exist. *)
Definition pipeStatics (existsSync : string -> bool) : list (string * string) :=
  map (fun file => ("static/" ++ file, distDirectory ++ "/" ++ file))
      (filter (fun file => existsSync ("static/" ++ file)) staticFiles).

(** The fields of the manifest [static/system.json] that [bumpVersion]
    writes. *)
Record Manifest : Type := { m_version : string; m_download : string }.

(** The state [bumpVersion] works on: the [packageJson] object read when
    the module was loaded, the version in [package.json] on disk, the
    manifest on disk ([None] when the file does not exist), the calls of
    the callback ([None] for [cb()], [Some e] for [cb(e)]) and the console
    output. *)
Record Project : Type := {
  packageJson_version : string;
  package_file : string;
  manifest_file : option Manifest;
  callbacks : list (option string);
  console : list string
}.

Definition call (error : option string) (p : Project) : Project :=
  {| packageJson_version := packageJson_version p;
     package_file := package_file p;
     manifest_file := manifest_file p;
     callbacks := (callbacks p ++ [error])%list;
     console := console p |}.

Definition releaseTypes : list string :=
  ["major"; "premajor"; "minor"; "preminor"; "patch"; "prepatch";
   "prerelease"].

Section Release.
(** [semver.inc] and [semver.valid] of the semver package: [None] is
    their [null]. *)
Variable semver_inc : string -> string -> option string.
Variable semver_valid : string -> option string.
(** [chalk.red] *)
Variable red : string -> string.

Definition getTargetVersion (currentVersion release : string)
  : option string :=
  if existsb (String.eqb release) releaseTypes
  then semver_inc currentVersion release
  else semver_valid release.

(** [bumpVersion(cb)] with the command-line arguments [--release] and
    [-r], when no file operation throws. *)
Definition bumpVersion (argv_release argv_r : option string) (p : Project)
  : Project :=
  let manifest := manifest_file p in
  let p :=
    match manifest with
    | None => call (Some (red "Manifest JSON not found")) p
    | Some _ => p
    end in
  let release := if Item.truthyKey argv_release then argv_release else argv_r in
  let currentVersion := packageJson_version p in
  match release with
  | None => call (Some "Missing release type") p
  | Some release =>
      if negb (Item.truthyKey (Some release))
      then call (Some "Missing release type") p
      else
        let targetVersion := getTargetVersion currentVersion release in
        match targetVersion with
        | None => call (Some (red "Error: Incorrect version arguments")) p
        | Some target =>
            if negb (Item.truthyKey targetVersion)
            then call (Some (red "Error: Incorrect version arguments")) p
            else if target =? currentVersion
            then call (Some (red "Error: Target version is identical to current version")) p
            else
              let message := "Updating version number to '" ++ target ++ "'" in
              let written :=
                {| packageJson_version := target;
                   package_file := target;
                   manifest_file := manifest_file p;
                   callbacks := callbacks p;
                   console := (console p ++ [message])%list |} in
              match manifest with
              | None => call (Some "TypeError") written
              | Some _ =>
                  call None
                    {| packageJson_version := target;
                       package_file := target;
                       manifest_file :=
                         Some {| m_version := target;
                                 m_download := getDownloadURL target |};
                       callbacks := callbacks written;
                       console := console written |}
              end
        end
  end.
(** What can fail underneath [bumpVersion]: reading and parsing a
    manifest that exists, and each of the two [writeFileSync] calls. *)
Record Disk : Type := {
  manifest_readable : bool;
  package_writable : bool;
  manifest_writable : bool
}.

(** [bumpVersion(cb)] on a disk whose operations can throw.  [getManifest]
    runs before the [try]: when it throws, the promise is rejected and the
    callback is never called ([Throw]).  A [writeFileSync] that throws is
    caught, and the error goes to the callback, after what was done
    before it. *)
Definition bumpVersionIO (disk : Disk) (argv_release argv_r : option string)
    (p : Project) : Item.completion Project :=
  let manifest := manifest_file p in
  match manifest, manifest_readable disk with
  | Some _, false => Item.Throw "Error"
  | _, _ =>
    let p :=
      match manifest with
      | None => call (Some (red "Manifest JSON not found")) p
      | Some _ => p
      end in
    let release :=
      if Item.truthyKey argv_release then argv_release else argv_r in
    let currentVersion := packageJson_version p in
    Item.Return
      match release with
      | None => call (Some "Missing release type") p
      | Some release =>
        if negb (Item.truthyKey (Some release))
        then call (Some "Missing release type") p
        else
          let targetVersion := getTargetVersion currentVersion release in
          match targetVersion with
          | None => call (Some (red "Error: Incorrect version arguments")) p
          | Some target =>
            if negb (Item.truthyKey targetVersion)
            then call (Some (red "Error: Incorrect version arguments")) p
            else if target =? currentVersion
            then call (Some (red "Error: Target version is identical to current version")) p
            else
              let message := "Updating version number to '" ++ target ++ "'" in
              let logged :=
                {| packageJson_version := target;
                   package_file := package_file p;
                   manifest_file := manifest_file p;
                   callbacks := callbacks p;
                   console := (console p ++ [message])%list |} in
              if negb (package_writable disk)
              then call (Some "Error") logged
              else
                let written :=
                  {| packageJson_version := target;
                     package_file := target;
                     manifest_file := manifest_file p;
                     callbacks := callbacks p;
                     console := console logged |} in
                match manifest with
                | None => call (Some "TypeError") written
                | Some _ =>
                    if negb (manifest_writable disk)
                    then call (Some "Error") written
                    else
                      call None
                        {| packageJson_version := target;
                           package_file := target;
                           manifest_file :=
                             Some {| m_version := target;
                                     m_download := getDownloadURL target |};
                           callbacks := callbacks written;
                           console := console written |}
                end
          end
      end
  end.
End Release.

End Gulp.



(* ================================================================== *)
(** * The eligibility rule as the specification words it *)
(* ================================================================== *)

Module Spec.
Import Messages.

(** Section 4.2: a range with an inclusive lower and an exclusive upper
    bound, here in the host's own version order. *)
Definition coreInRange (min curr max : string) : bool :=
  negb (Version.isNewerVersion min curr) && Version.isNewerVersion max curr.

(** Section 4.2: "its version bounds (both host and module) are satisfied
    by the current running versions ..., AND (scope is every OR its title
    has not previously been recorded as shown)". *)
Definition eligible (game : Game) (h : Host) (msg : Message) : bool :=
  coreInRange (Js.default (min_core_version msg) "0.0.0")
              (version game)
              (Js.default (max_core_version msg) "100.0.0")
  && Version.semverComp (Js.default (min_sys_version msg) "0.0.0")
                        (system_version game)
                        (Js.default (max_sys_version msg) "100.0.0")
                        true
  && (Js.strict_eq (display msg) (Js.Str "every")
      || negb (hasDisplayed h (title msg))).

(** Section 3: "an identifier appears at most once". *)
Definition atMostOnce (h : Host) : Prop := NoDup (settings h).


End Spec.

(* ================================================================== *)
(** * Concrete inputs *)
(* ================================================================== *)

Module Examples.
Import Messages.

Definition game0 : Game :=
  {| version := "11.315"; system_version := "11.0.1";
     user_name := "Deckard"; user_id := "user-1" |}.

Definition host_fresh : Host :=
  {| settings := []; dialogs := []; chatLog := [] |}.

Definition host_shown : Host :=
  {| settings := ["Welcome"]; dialogs := []; chatLog := [] |}.

Definition message (scope kind heading : string)
  (minCore maxCore minSys maxSys : option string) : Message :=
  {| display := Js.Str scope; title := heading;
     content := "Hello {name}"; type := Js.Str kind;
     min_core_version := minCore; max_core_version := maxCore;
     min_sys_version := minSys; max_sys_version := maxSys |}.

(** A recurring message without version bounds. *)
Definition msg_every : Message :=
  message "every" "chat" "Welcome" None None None None.



(** A one-time message whose lower system bound is the running version. *)
Definition msg_min_sys : Message :=
  message "once" "chat" "News" None None (Some "11.0.1") None.

(** A one-time prompt. *)
Definition msg_prompt : Message :=
  message "once" "prompt" "Welcome" None None None None.

(** A stand-in for [JSON.parse] that knows one text only, the empty
    array. *)
Definition parseEmptyArray (text : string) : option (list Message) :=
  if text =? "[]" then Some [] else None.

Definition noTranslation (key : string) : string := key.

(** A human with attribute score 10 and skill score 8, without
    modifiers. *)
Definition human : Item.Actor unit :=
  {| Item.nature := BR.NATURES.HUMAN;
     Item.getAttribute := fun _ => Js.Number 10;
     Item.getSkill := fun _ => Js.Number 8;
     Item.getRollModifiers := fun _ => [] |}.

Definition pistol (rollable : Js.value) (owner : option (Item.Actor unit))
  : Item.t unit :=
  {| Item.name := "Pistol";
     Item.props :=
       {| Item.qty := 1; Item.rollable := rollable;
          Item.attribute := Some BR.ATTRIBUTES.AGILITY;
          Item.skill := Some BR.SKILLS.FIREARMS |};
     Item.actor := owner |}.

(** A success is a face of six or more. *)
Definition sixOrMore (d : Roller.Die) : bool := (6 <=? Roller.face d)%Z.

Definition spentRoll : Roller.Roll :=
  {| Roller.results :=
       [{| Roller.size := 10; Roller.face := 3 |};
        {| Roller.size := 8; Roller.face := 7 |}];
     Roller.pushesLeft := 0 |}.

(** A stand-in for [semver.inc] that knows one release type. *)
Definition incMajor (current release : string) : option string :=
  if release =? "major" then Some "12.0.0" else None.

Definition noVersion (release : string) : option string := None.

Definition plain (text : string) : string := text.

Definition project (manifest : option Gulp.Manifest) : Gulp.Project :=
  {| Gulp.packageJson_version := "11.0.1";
     Gulp.package_file := "11.0.1";
     Gulp.manifest_file := manifest;
     Gulp.callbacks := [];
     Gulp.console := [] |}.

Definition manifest0 : Gulp.Manifest :=
  {| Gulp.m_version := "11.0.1";
     Gulp.m_download := Gulp.getDownloadURL "11.0.1" |}.

(** A disk on which the manifest can be read but not written. *)
Definition readOnlyManifest : Gulp.Disk :=
  {| Gulp.manifest_readable := true; Gulp.package_writable := true;
     Gulp.manifest_writable := false |}.

(** A player who only has limited permission on the actor. *)
Definition limitedView : CharacterSheet.Context :=
  {| CharacterSheet.isGM := false; CharacterSheet.limited := true;
     CharacterSheet.isEditable := false;
     CharacterSheet.subtype := Js.Str "npc";
     CharacterSheet.resolve_value := 5 |}.

(** The owner of a player character with one point of resolve left. *)
Definition ownerView : CharacterSheet.Context :=
  {| CharacterSheet.isGM := false; CharacterSheet.limited := false;
     CharacterSheet.isEditable := true;
     CharacterSheet.subtype := Js.Str "pc";
     CharacterSheet.resolve_value := 1 |}.

(** An actor without any score. *)
Definition blank : Item.Actor unit :=
  {| Item.nature := BR.NATURES.HUMAN;
     Item.getAttribute := fun _ => Js.Undefined;
     Item.getSkill := fun _ => Js.Number 0;
     Item.getRollModifiers := fun _ => [] |}.

(** A rollable item that names no attribute. *)
Definition trinket : Item.t unit :=
  {| Item.name := "Trinket";
     Item.props :=
       {| Item.qty := 3; Item.rollable := Js.Boolean true;
          Item.attribute := None; Item.skill := None |};
     Item.actor := Some human |}.

(** A stand-in for [JSON.parse] on a text that spells the given
    catalog. *)
Definition spells (catalog : list Messages.Message) (text : string)
  : option (list Messages.Message) := Some catalog.

End Examples.


(* ================================================================== *)
(** * The configuration tables *)
(* ================================================================== *)

(** Splits a membership in a literal list into one goal per element. *)
Ltac each_member H :=
  cbv in H;
  repeat match type of H with
         | _ \/ _ => destruct H as [H | H]
         end;
  try contradiction; subst.

Section ConfigTables.

(** C6: for every score in 6, 8, 10, 12 the die map gives a label whose
    score-map entry is that score again; the label is one of A to D, no
    other score has it, and from the label the round trip comes back to
    the label as well. *)
Theorem score_die_round_trip (v : Z) :
  In v [6; 8; 10; 12]%Z ->
  exists label,
    Js.get Z.eqb v FLBR.dieMap = Some label
    /\ Js.get String.eqb label FLBR.scoreMap = Some v
    /\ In label (Js.keys BR.DIE_SCORES)
    /\ (forall v', In v' (Js.values BR.DIE_SCORES) ->
                   Js.get Z.eqb v' FLBR.dieMap = Some label -> v' = v).
Proof.
  intros Hv.
  each_member Hv;
    [ exists "D" | exists "C" | exists "B" | exists "A" ];
    (repeat split;
     [ cbv; auto 6
     | intros v' Hv' Hget; each_member Hv';
       solve [ reflexivity | discriminate Hget ] ]).
Qed.

(** C6 at the score 10, whose label is B. *)
Lemma score_die_round_trip_witness :
  exists label,
    Js.get Z.eqb 10%Z FLBR.dieMap = Some label
    /\ Js.get String.eqb label FLBR.scoreMap = Some 10%Z
    /\ In label (Js.keys BR.DIE_SCORES)
    /\ (forall v', In v' (Js.values BR.DIE_SCORES) ->
                   Js.get Z.eqb v' FLBR.dieMap = Some label -> v' = 10%Z).
Proof.
  apply (score_die_round_trip 10%Z). simpl. auto.
Defined.

(** C3: for each of the four attributes the push-trauma table sends a
    human's pushed failing dice to the capacity that governs the
    attribute in the capacities table (health for strength and agility,
    resolve for intelligence and empathy), and a replicant's to
    resolve. *)
Theorem pushTraumaMap_by_nature (a : string) :
  In a [BR.ATTRIBUTES.STRENGTH; BR.ATTRIBUTES.AGILITY;
        BR.ATTRIBUTES.INTELLIGENCE; BR.ATTRIBUTES.EMPATHY] ->
  FLBR.pushTrauma BR.NATURES.HUMAN a = FLBR.governingCapacity a
  /\ FLBR.pushTrauma BR.NATURES.HUMAN a =
       Some (if (a =? BR.ATTRIBUTES.STRENGTH) || (a =? BR.ATTRIBUTES.AGILITY)
             then BR.CAPACITIES.HEALTH else BR.CAPACITIES.RESOLVE)
  /\ FLBR.pushTrauma BR.NATURES.REPLICANT a = Some BR.CAPACITIES.RESOLVE.
Proof.
  intros Ha. each_member Ha; repeat split.
Qed.

(** C3 at agility. *)
Lemma pushTraumaMap_by_nature_witness :
  FLBR.pushTrauma BR.NATURES.HUMAN "agi" = FLBR.governingCapacity "agi"
  /\ FLBR.pushTrauma BR.NATURES.HUMAN "agi" = Some "health"
  /\ FLBR.pushTrauma BR.NATURES.REPLICANT "agi" = Some "resolve".
Proof.
  apply (pushTraumaMap_by_nature "agi"). simpl. auto.
Defined.

(** C8 as stated fails: the character's attribute list has four names,
    not five. *)
Lemma character_attributes_are_four :
  FLBR.attributes = ["str"; "agi"; "int"; "emp"]
  /\ List.length FLBR.attributes <> 5%nat.
Proof.
  split; [ reflexivity | cbv; discriminate ].
Qed.

(** C8, amended: the attribute enumeration names five attributes; the
    character's attribute list is four of them, every one but vehicle
    maneuverability; there are thirteen skills, the skill map has the
    same thirteen keys, and it holds for each skill exactly one entry,
    whose value is one of the five attributes. *)
Theorem attributes_and_skills :
  List.length (Js.values BR.ATTRIBUTES.enum) = 5%nat
  /\ NoDup (Js.values BR.ATTRIBUTES.enum)
  /\ List.length FLBR.attributes = 4%nat
  /\ (forall a, In a FLBR.attributes <->
                In a (Js.values BR.ATTRIBUTES.enum)
                /\ a <> BR.ATTRIBUTES.VEHICLE_MANEUVERABILITY)
  /\ List.length (Js.values BR.SKILLS.enum) = 13%nat
  /\ NoDup (Js.values BR.SKILLS.enum)
  /\ List.length FLBR.skills = 13%nat
  /\ (forall s, In s (Js.values BR.SKILLS.enum) ->
        In s FLBR.skills
        /\ Js.entriesFor s FLBR.skillMap = 1%nat
        /\ exists a, Js.prop s FLBR.skillMap = Some a
                     /\ In a (Js.values BR.ATTRIBUTES.enum)).
Proof.
  repeat apply conj.
  - reflexivity.
  - cbv. repeat constructor; cbv; intuition discriminate.
  - reflexivity.
  - intros a. unfold FLBR.attributes. rewrite filter_In.
    split; intros [Hin Hneq]; split; try exact Hin.
    + intros ->. discriminate Hneq.
    + apply Bool.negb_true_iff, String.eqb_neq. exact Hneq.
  - reflexivity.
  - cbv. repeat constructor; cbv; intuition discriminate.
  - reflexivity.
  - intros s Hs. each_member Hs;
      (repeat split; [ cbv; auto 20 | eexists; split; [ reflexivity | cbv; auto 10 ] ]).
Qed.

End ConfigTables.

(* ================================================================== *)
(** * Item rolls *)
(* ================================================================== *)

Section ItemRoll.

Variable localize : string -> string.
Variable capitalize : string -> string.
Variable Modifier : Type.

(** What [roll] does once both guards are passed and the item names an
    attribute: one handler is built and rendered. *)
Lemma roll_renders (item : Item.t Modifier) (act : Item.Actor Modifier)
    (key : string) (apps : Item.Rendered Modifier) :
  Item.is_rollable item = true ->
  Item.actor item = Some act ->
  Item.attribute (Item.props item) = Some key ->
  exists o,
    Item.roll localize capitalize item apps = (Item.Return (Some o), (apps ++ [o])%list)
    /\ Item.ro_dice o =
         filter Js.truthy
                [Item.getAttribute act key;
                 Item.getSkill act (Item.skill (Item.props item))]
    /\ Item.ro_maxPush o = Js.prop (Item.nature act) FLBR.maxPushMap
    /\ Item.ro_actor o = act.
Proof.
  intros Hroll Hact Hkey.
  unfold Item.roll. rewrite Hroll, Hact, Hkey. cbn [negb].
  eexists. split; [ reflexivity | ]. cbn [Item.ro_dice Item.ro_maxPush Item.ro_actor].
  repeat split.
  cbn [filter].
  destruct (Js.truthy (Item.getAttribute act key));
    destruct (Js.truthy (Item.getSkill act (Item.skill (Item.props item))));
    reflexivity.
Qed.

(** C7: the dice list of an item roll holds the attribute score and then
    the skill score, each only when it is truthy, so a zero or absent score
    adds no entry; with attribute score 10 and skill score 8 the list is
    10 and then 8. *)
Theorem roll_dice_list (item : Item.t Modifier) (act : Item.Actor Modifier)
    (key : string) (apps : Item.Rendered Modifier) :
  Item.is_rollable item = true ->
  Item.actor item = Some act ->
  Item.attribute (Item.props item) = Some key ->
  exists o,
    Item.roll localize capitalize item apps = (Item.Return (Some o), (apps ++ [o])%list)
    /\ Item.ro_dice o =
         filter Js.truthy
                [Item.getAttribute act key;
                 Item.getSkill act (Item.skill (Item.props item))]
    /\ (forall v, In v [Js.Undefined; Js.Null; Js.Number 0] ->
                  ~ In v (Item.ro_dice o))
    /\ (Item.getAttribute act key = Js.Number 10 ->
        Item.getSkill act (Item.skill (Item.props item)) = Js.Number 8 ->
        Item.ro_dice o = [Js.Number 10; Js.Number 8]).
Proof.
  intros Hroll Hact Hkey.
  destruct (roll_renders item act key apps Hroll Hact Hkey)
    as (o & Hrun & Hdice & _).
  exists o. repeat split; try assumption.
  - intros v Hv Hin. rewrite Hdice in Hin.
    apply filter_In in Hin. destruct Hin as [_ Htruthy].
    each_member Hv; discriminate Htruthy.
  - intros Ha Hs. rewrite Hdice, Ha, Hs. reflexivity.
Qed.

(** C10: when the item is not rollable, or has no owning actor, [roll]
    returns at once: no handler is built or rendered, and the rendered
    applications are what they were. *)
Theorem roll_guards (item : Item.t Modifier) (apps : Item.Rendered Modifier) :
  Item.is_rollable item = false \/ Item.actor item = None ->
  Item.roll localize capitalize item apps = (Item.Return None, apps).
Proof.
  intros [Hroll | Hact]; unfold Item.roll.
  - rewrite Hroll. reflexivity.
  - rewrite Hact. destruct (Item.is_rollable item); reflexivity.
Qed.

(** C2: the maximum push count is 1 for a human and 2 for a replicant; an
    item roll hands [FLBR.maxPushMap] at the actor's nature to the roll
    handler; and a push with no push left returns the roll as it was. *)
Theorem maxPush_by_nature :
  (Js.prop BR.NATURES.HUMAN FLBR.maxPushMap = Some 1%Z
   /\ Js.prop BR.NATURES.REPLICANT FLBR.maxPushMap = Some 2%Z)
  /\ (forall (item : Item.t Modifier) act key apps,
         Item.is_rollable item = true ->
         Item.actor item = Some act ->
         Item.attribute (Item.props item) = Some key ->
         exists o,
           Item.roll localize capitalize item apps = (Item.Return (Some o), (apps ++ [o])%list)
           /\ Item.ro_maxPush o = Js.prop (Item.nature act) FLBR.maxPushMap
           /\ (Item.nature act = BR.NATURES.HUMAN ->
               Item.ro_maxPush o = Some 1%Z)
           /\ (Item.nature act = BR.NATURES.REPLICANT ->
               Item.ro_maxPush o = Some 2%Z))
  /\ (forall success fresh r,
         Roller.pushesLeft r = 0%Z -> Roller.push success fresh r = r).
Proof.
  split; [ split; reflexivity | split ].
  - intros item act key apps Hroll Hact Hkey.
    destruct (roll_renders item act key apps Hroll Hact Hkey)
      as (o & Hrun & _ & Hmax & _).
    exists o. repeat split; try assumption.
    + intros Hn. rewrite Hmax, Hn. reflexivity.
    + intros Hn. rewrite Hmax, Hn. reflexivity.
  - intros success fresh r Hleft. unfold Roller.push.
    rewrite Hleft. reflexivity.
Qed.

End ItemRoll.

(** C7 at the actor with attribute score 10 and skill score 8. *)
Lemma roll_dice_list_witness :
  exists o,
    Item.roll Examples.noTranslation Examples.noTranslation
      (Examples.pistol (Js.Boolean true) (Some Examples.human)) []
    = (Item.Return (Some o), [o])
    /\ Item.ro_dice o = [Js.Number 10; Js.Number 8].
Proof.
  destruct (roll_dice_list Examples.noTranslation Examples.noTranslation unit
              (Examples.pistol (Js.Boolean true) (Some Examples.human))
              Examples.human "agi" [] eq_refl eq_refl eq_refl)
    as (o & Hrun & _ & _ & Hdice).
  exists o. split; [ exact Hrun | apply Hdice; reflexivity ].
Defined.

(** C10 at an item that is not rollable and at one without an actor. *)
Lemma roll_guards_witness :
  Item.roll Examples.noTranslation Examples.noTranslation
    (Examples.pistol Js.Undefined (Some Examples.human)) []
  = (Item.Return None, [])
  /\ Item.roll Examples.noTranslation Examples.noTranslation
       (Examples.pistol (Js.Boolean true) None) []
     = (Item.Return None, []).
Proof.
  split.
  - apply (roll_guards Examples.noTranslation Examples.noTranslation unit).
    left. reflexivity.
  - apply (roll_guards Examples.noTranslation Examples.noTranslation unit).
    right. reflexivity.
Defined.

(** C2 at a human's item roll and at a roll with no push left. *)
Lemma maxPush_by_nature_witness :
  (exists o,
      Item.roll Examples.noTranslation Examples.noTranslation
        (Examples.pistol (Js.Boolean true) (Some Examples.human)) []
      = (Item.Return (Some o), [o])
      /\ Item.ro_maxPush o = Some 1%Z)
  /\ Roller.push Examples.sixOrMore [9%Z] Examples.spentRoll
     = Examples.spentRoll.
Proof.
  destruct (maxPush_by_nature Examples.noTranslation Examples.noTranslation unit)
    as (_ & Hitem & Hpush).
  split.
  - destruct (Hitem (Examples.pistol (Js.Boolean true) (Some Examples.human))
                    Examples.human "agi" [] eq_refl eq_refl eq_refl)
      as (o & Hrun & _ & Hhuman & _).
    exists o. split; [ exact Hrun | apply Hhuman; reflexivity ].
  - apply Hpush. reflexivity.
Defined.

(* ================================================================== *)
(** * Version comparison *)
(* ================================================================== *)








(** ** The host's version order is a strict total order on version strings *)











Lemma newerThan_nil (parts : list string) : Version.newerThan [] parts = false.
Proof. now destruct parts. Qed.






(* ================================================================== *)
(** * The display pass *)
(* ================================================================== *)

Section DisplayPass.
Import Messages.

Variable game : Game.
Variable localize : string -> string.

(** [!msg.display] is a boolean, and no boolean is strictly equal to the
    string it is compared with: whether a message is displayable only
    depends on the shown-list. *)
Lemma isDisplayable_shown (h : Host) (msg : Message) :
  isDisplayable h msg = negb (hasDisplayed h (title msg)).
Proof. reflexivity. Qed.

Lemma hasDisplayed_In (h : Host) (identifier : string) :
  hasDisplayed h identifier = true <-> In identifier (settings h).
Proof.
  unfold hasDisplayed. split.
  - destruct (existsb (String.eqb identifier) (settings h)) eqn:E;
      [ | discriminate ].
    intros _. apply existsb_exists in E. destruct E as (x & Hx & Heq).
    apply String.eqb_eq in Heq. now subst.
  - intros Hin.
    assert (E : existsb (String.eqb identifier) (settings h) = true).
    { apply existsb_exists. exists identifier. split; [ exact Hin | ].
      apply String.eqb_refl. }
    now rewrite E.
Qed.

Lemma handleDisplay_not_current (h : Host) (msg : Message) :
  isCurrent game h msg = false -> handleDisplay game localize msg h = h.
Proof.
  intros H. unfold handleDisplay. now rewrite H.
Qed.

(** A title on the shown-list is never current, whatever its scope. *)
Lemma isCurrent_shown (h : Host) (msg : Message) :
  hasDisplayed h (title msg) = true -> isCurrent game h msg = false.
Proof.
  intros H. unfold isCurrent. rewrite isDisplayable_shown, H. reflexivity.
Qed.

(** The display steps change the shown-list by recording at most the
    title of the message: only a chat message records it at once. *)
Lemma handleDisplay_settings (h : Host) (msg : Message) :
  settings (handleDisplay game localize msg h) = settings h
  \/ (isCurrent game h msg = true
      /\ settings (handleDisplay game localize msg h)
         = (settings h ++ [title msg])%list).
Proof.
  unfold handleDisplay.
  destruct (isCurrent game h msg) eqn:Hcur; cbn [negb]; [ | now left ].
  destruct (Js.strict_eq (type msg) (Js.Str "prompt")); [ now left | ].
  destruct (Js.strict_eq (type msg) (Js.Str "chat")); [ | now left ].
  right. split; reflexivity.
Qed.

Lemma setDisplayed_fresh (identifier : string) (h : Host) :
  NoDup (settings h) ->
  hasDisplayed h identifier = false ->
  NoDup (settings (setDisplayed identifier h)).
Proof.
  intros Hnd Hfresh. cbn [setDisplayed settings].
  apply NoDup_app.
  - exact Hnd.
  - constructor; [ intros [] | constructor ].
  - intros a Ha [<- | []].
    apply hasDisplayed_In in Ha. congruence.
Qed.

End DisplayPass.

Section DisplayClaims.
Import Messages.

Variable game : Game.
Variable localize : string -> string.
Variable JSON_parse : string -> option (list Message).


(** C5, amended: on a shown-list without repetition, [setDisplayed] keeps
    the list without repetition when the identifier it records is not yet
    on the list, and so does the display step of a one-time message, which
    records a title only after [hasDisplayed] found it absent. *)
Theorem shown_list_at_most_once (h : Host) :
  Spec.atMostOnce h ->
  (forall identifier,
      hasDisplayed h identifier = false ->
      Spec.atMostOnce (setDisplayed identifier h))
  /\ (forall msg,
         display msg = Js.Str "once" ->
         Spec.atMostOnce (handleDisplay game localize msg h)).
Proof.
  unfold Spec.atMostOnce. intros Hnd. split.
  - intros identifier Hfresh. now apply setDisplayed_fresh.
  - intros msg _.
    destruct (handleDisplay_settings game localize h msg)
      as [-> | [Hcur ->]]; [ exact Hnd | ].
    apply (setDisplayed_fresh (title msg) h Hnd).
    unfold isCurrent in Hcur. rewrite isDisplayable_shown in Hcur.
    destruct (hasDisplayed h (title msg)); [ discriminate Hcur | reflexivity ].
Qed.

(** C9: when the comment-stripped catalog text is not valid JSON, the
    promise of [displayMessages] is rejected before any message is handled:
    the host has the dialogs, the chat log and the shown-list it had. *)
Theorem malformed_catalog_aborts (jsonc : string) (h : Host) :
  JSON_parse (stripJSON jsonc) = None ->
  displayMessages game localize JSON_parse (Some jsonc) h = (Rejected, h).
Proof.
  intros Hparse. unfold displayMessages. now rewrite Hparse.
Qed.

End DisplayClaims.

(** C1 fails on the code: a recurring message without version bounds, whose
    title is on the shown-list, is eligible by the rule of the
    specification, but [isCurrent] rejects it and [handleDisplay] shows
    nothing. *)
Theorem every_message_shown_once_only :
  Messages.display Examples.msg_every = Js.Str "every"
  /\ Messages.correctCoreVersion Examples.game0 Examples.msg_every = true
  /\ Messages.correctSysVersion Examples.game0 Examples.msg_every = true
  /\ Messages.hasDisplayed Examples.host_shown
       (Messages.title Examples.msg_every) = true
  /\ Spec.eligible Examples.game0 Examples.host_shown Examples.msg_every = true
  /\ Messages.isCurrent Examples.game0 Examples.host_shown Examples.msg_every
     = false
  /\ Messages.handleDisplay Examples.game0 Examples.noTranslation
       Examples.msg_every Examples.host_shown
     = Examples.host_shown.
Proof.
  repeat split.
Qed.



(** C5 as stated fails: [setDisplayed] appends without looking, so
    recording a title that is on the list repeats it; and the list gets
    there from an empty one when a prompt is displayed twice before it is
    confirmed. *)
Lemma setDisplayed_repeats :
  Spec.atMostOnce Examples.host_shown
  /\ ~ Spec.atMostOnce (Messages.setDisplayed "Welcome" Examples.host_shown)
  /\ (let shown :=
        fold_left
          (fun h msg =>
             Messages.handleDisplay Examples.game0 Examples.noTranslation msg h)
          [Examples.msg_prompt; Examples.msg_prompt] Examples.host_fresh in
      Messages.settings
        (fold_left (fun h d => Messages.confirmPrompt d h)
                   (Messages.dialogs shown) shown)
      = ["Welcome"; "Welcome"]).
Proof.
  unfold Spec.atMostOnce. repeat split.
  - cbn. constructor; [ intros [] | constructor ].
  - cbn. intros Hnd. inversion Hnd as [| x l Hnotin _]; subst.
    apply Hnotin. left. reflexivity.
Qed.

(** C5, amended, at the empty shown-list. *)
Lemma shown_list_at_most_once_witness :
  Spec.atMostOnce (Messages.setDisplayed "Welcome" Examples.host_fresh)
  /\ Spec.atMostOnce
       (Messages.handleDisplay Examples.game0 Examples.noTranslation
          Examples.msg_min_sys Examples.host_fresh).
Proof.
  destruct (shown_list_at_most_once Examples.game0 Examples.noTranslation
              Examples.host_fresh (NoDup_nil string))
    as [Hset Hstep].
  split.
  - apply Hset. reflexivity.
  - apply Hstep. reflexivity.
Defined.

(** C9 at a catalog that is cut short after its opening bracket. *)
Lemma malformed_catalog_aborts_witness :
  Messages.stripJSON "[ // the array is never closed" = "["
  /\ Messages.displayMessages Examples.game0 Examples.noTranslation
       Examples.parseEmptyArray
       (Some "[ // the array is never closed") Examples.host_shown
     = (Messages.Rejected, Examples.host_shown).
Proof.
  split; [ reflexivity | ].
  apply (malformed_catalog_aborts Examples.game0 Examples.noTranslation
           Examples.parseEmptyArray).
  reflexivity.
Defined.

(* ================================================================== *)
(** * More on the configuration tables *)
(* ================================================================== *)

(** Decides every comparison of the variable [k] with a literal key. *)
Ltac by_key k :=
  repeat match goal with
         | |- context [String.eqb k ?lit] =>
             destruct (String.eqb_spec k lit); [ subst k | ]
         | H : context [String.eqb k ?lit] |- _ =>
             destruct (String.eqb_spec k lit); [ subst k | ]
         end.

Ltac by_number z :=
  repeat match goal with
         | |- context [Z.eqb z ?lit] =>
             destruct (Z.eqb_spec z lit); [ subst z | ]
         | H : context [Z.eqb z ?lit] |- _ =>
             destruct (Z.eqb_spec z lit); [ subst z | ]
         end.

Lemma scoreMap_entries :
  FLBR.scoreMap = [("–", 0); ("A", 12); ("B", 10); ("C", 8); ("D", 6)]%Z.
Proof. reflexivity. Qed.

Lemma dieMap_entries :
  FLBR.dieMap = [(0, "–"); (12, "A"); (10, "B"); (8, "C"); (6, "D")]%Z.
Proof. reflexivity. Qed.

(** X1: the die map is the inverse of the score map on every key, the
    dash of a missing score and the number 0 included: a label has a score
    in the score map exactly when the die map gives that label for the
    score. *)
Theorem dieMap_inverts_scoreMap (n : string) (v : Z) :
  Js.get String.eqb n FLBR.scoreMap = Some v
  <-> Js.get Z.eqb v FLBR.dieMap = Some n.
Proof.
  rewrite scoreMap_entries, dieMap_entries. cbn [Js.get].
  split; intros H.
  - by_key n; try discriminate H;
      injection H as <-; reflexivity.
  - by_number v; try discriminate H;
      injection H as <-; reflexivity.
Qed.

(** The skills an attribute governs in [FLBR.skillMap]. *)
Lemma skills_of_attribute :
  map fst (filter (fun e => snd e =? "str") FLBR.skillMap)
    = ["closeCombat"; "force"; "stamina"]
  /\ map fst (filter (fun e => snd e =? "agi") FLBR.skillMap)
    = ["firearms"; "mobility"; "stealth"]
  /\ map fst (filter (fun e => snd e =? "int") FLBR.skillMap)
    = ["medicalAid"; "observation"; "tech"]
  /\ map fst (filter (fun e => snd e =? "emp") FLBR.skillMap)
    = ["connections"; "insight"; "manipulation"]
  /\ map fst (filter (fun e => snd e =? "mvr") FLBR.skillMap)
    = ["driving"].
Proof. repeat split. Qed.

(** X2: every character attribute governs exactly three skills of the
    skill map, and the vehicle attribute governs one skill only,
    driving. *)
Theorem three_skills_per_attribute (a : string) :
  In a FLBR.attributes ->
  List.length (filter (fun e => snd e =? a) FLBR.skillMap) = 3%nat
  /\ filter (fun e => snd e =? FLBR.vehicleAttribute) FLBR.skillMap
     = [(BR.SKILLS.DRIVING, FLBR.vehicleAttribute)].
Proof.
  intros Ha. each_member Ha; split; reflexivity.
Qed.

(** X2 at empathy. *)
Lemma three_skills_per_attribute_witness :
  List.length (filter (fun e => snd e =? "emp") FLBR.skillMap) = 3%nat
  /\ filter (fun e => snd e =? FLBR.vehicleAttribute) FLBR.skillMap
     = [(BR.SKILLS.DRIVING, FLBR.vehicleAttribute)].
Proof.
  apply (three_skills_per_attribute "emp"). cbv. auto.
Defined.

(** X3: the attribute lists of the two capacities split the character
    attributes: each one is listed by exactly one capacity; the vehicle
    attribute is listed by none, and the push-trauma table has no entry
    for it under either nature. *)
Theorem capacities_split_attributes (a : string) :
  In a FLBR.attributes ->
  List.length
    (filter (fun e => existsb (String.eqb a) (FLBR.cap_attributes (snd e)))
            FLBR.capacitiesMap) = 1%nat
  /\ FLBR.governingCapacity FLBR.vehicleAttribute = None
  /\ FLBR.pushTrauma BR.NATURES.HUMAN FLBR.vehicleAttribute = None
  /\ FLBR.pushTrauma BR.NATURES.REPLICANT FLBR.vehicleAttribute = None.
Proof.
  intros Ha. each_member Ha; repeat split.
Qed.

(** X3 at intelligence. *)
Lemma capacities_split_attributes_witness :
  List.length
    (filter (fun e => existsb (String.eqb "int") (FLBR.cap_attributes (snd e)))
            FLBR.capacitiesMap) = 1%nat
  /\ FLBR.governingCapacity FLBR.vehicleAttribute = None.
Proof.
  destruct (capacities_split_attributes "int") as (H1 & H2 & _).
  - cbv. auto.
  - split; assumption.
Defined.

Lemma natures_entries :
  FLBR.natures
  = [("human", "FLBR.NATURE.Human"); ("replicant", "FLBR.NATURE.Replicant")].
Proof. reflexivity. Qed.

Lemma maxPushMap_entries :
  FLBR.maxPushMap = [("human", 1%Z); ("replicant", 2%Z)].
Proof. reflexivity. Qed.

Lemma natureModifierMap_entries :
  FLBR.natureModifierMap
  = [("human", [("health", 0%Z); ("resolve", 0%Z)]);
     ("replicant", [("health", 2%Z); ("resolve", (-2)%Z)])].
Proof. reflexivity. Qed.

Lemma pushTraumaMap_entries :
  FLBR.pushTraumaMap
  = [("human",
      [("str", "health"); ("agi", "health");
       ("int", "resolve"); ("emp", "resolve")]);
     ("replicant",
      [("str", "resolve"); ("agi", "resolve");
       ("int", "resolve"); ("emp", "resolve")])].
Proof. reflexivity. Qed.

(** X4: whatever key is looked up, a nature that has a label in
    [FLBR.natures] has a maximum push count of at least one, a modifier
    for both capacities, and a push-trauma capacity for every character
    attribute, which is one of the two capacities; a key without a label
    has none of them. *)
Theorem nature_tables_agree (nature : string) :
  (forall name, Js.prop nature FLBR.natures = Some name ->
     (exists n, Js.prop nature FLBR.maxPushMap = Some n /\ (1 <= n)%Z)
     /\ (forall c, In c (Js.keys FLBR.capacitiesMap) ->
                   exists m, FLBR.natureModifier nature c = Some m)
     /\ (forall a, In a FLBR.attributes ->
                   exists c, FLBR.pushTrauma nature a = Some c
                             /\ In c (Js.keys FLBR.capacitiesMap)))
  /\ (Js.prop nature FLBR.natures = None ->
      Js.prop nature FLBR.maxPushMap = None
      /\ (forall c, FLBR.natureModifier nature c = None)
      /\ (forall a, FLBR.pushTrauma nature a = None)).
Proof.
  unfold FLBR.natureModifier, FLBR.pushTrauma, Js.prop.
  rewrite natures_entries, maxPushMap_entries, natureModifierMap_entries,
    pushTraumaMap_entries.
  cbn [Js.get].
  split.
  - intros name Hname. by_key nature; try discriminate Hname.
    + repeat split.
      * exists 1%Z. split; [ reflexivity | lia ].
      * intros c Hc. each_member Hc; eexists; reflexivity.
      * intros a Ha. each_member Ha; eexists; (split; [ reflexivity | cbv; auto ]).
    + repeat split.
      * exists 2%Z. split; [ reflexivity | lia ].
      * intros c Hc. each_member Hc; eexists; reflexivity.
      * intros a Ha. each_member Ha; eexists; (split; [ reflexivity | cbv; auto ]).
  - intros Hnone. by_key nature; try discriminate Hnone.
    repeat split.
Qed.

(** X4 at the replicant. *)
Lemma nature_tables_agree_witness :
  exists n, Js.prop "replicant" FLBR.maxPushMap = Some n /\ (1 <= n)%Z.
Proof.
  destruct (nature_tables_agree "replicant") as [Hsome _].
  destruct (Hsome "FLBR.NATURE.Replicant" eq_refl) as [Hmax _].
  exact Hmax.
Defined.

Lemma actionSkillMap_entries :
  FLBR.actionSkillMap
  = [("action-sprint",
      {| FLBR.label := "FLBR.CombatAction.Sprint";
         FLBR.skill := Js.Str "mobility" |});
     ("action-crawl",
      {| FLBR.label := "FLBR.CombatAction.Crawl"; FLBR.skill := Js.Null |});
     ("action-unarmed-attack",
      {| FLBR.label := "FLBR.CombatAction.UnarmedAttack";
         FLBR.skill := Js.Str "closeCombat" |});
     ("action-melee-attack",
      {| FLBR.label := "FLBR.CombatAction.MeleeAttack";
         FLBR.skill := Js.Str "closeCombat" |});
     ("action-grapple",
      {| FLBR.label := "FLBR.CombatAction.Grapple";
         FLBR.skill := Js.Str "closeCombat" |});
     ("action-break-free",
      {| FLBR.label := "FLBR.CombatAction.BreakFree";
         FLBR.skill := Js.Str "closeCombat" |});
     ("action-shoot-firearm",
      {| FLBR.label := "FLBR.CombatAction.ShootFirearm";
         FLBR.skill := Js.Str "firearms" |});
     ("action-careful-aim",
      {| FLBR.label := "FLBR.CombatAction.CarefulAim";
         FLBR.skill := Js.Null |});
     ("action-throw-weapon",
      {| FLBR.label := "FLBR.CombatAction.ThrowWeapon";
         FLBR.skill := Js.Str "firearms" |});
     ("action-first-aid",
      {| FLBR.label := "FLBR.CombatAction.FirstAid";
         FLBR.skill := Js.Str "medicalAid" |});
     ("action-manipulate",
      {| FLBR.label := "FLBR.CombatAction.Manipulate";
         FLBR.skill := Js.Str "manipulation" |});
     ("action-use-item",
      {| FLBR.label := "FLBR.CombatAction.UseItem";
         FLBR.skill := Js.Str "any" |})].
Proof. reflexivity. Qed.

(** X5: the action table has one entry for each of the twelve combat
    actions, in their order, and whatever action is looked up, its skill
    is [null], the word any, or a skill of the skill map whose governing
    attribute is a character attribute (no action rolls the vehicle
    attribute). *)
Theorem actionSkillMap_skills (key : string) (act : FLBR.action) :
  Js.prop key FLBR.actionSkillMap = Some act ->
  Js.keys FLBR.actionSkillMap = Js.values BR.COMBAT_ACTIONS.enum
  /\ (FLBR.skill act = Js.Null
      \/ FLBR.skill act = Js.Str "any"
      \/ exists s a,
           FLBR.skill act = Js.Str s
           /\ In s FLBR.skills
           /\ Js.prop s FLBR.skillMap = Some a
           /\ In a FLBR.attributes).
Proof.
  intros Hact. split; [ reflexivity | ].
  unfold Js.prop in Hact. rewrite actionSkillMap_entries in Hact.
  cbn [Js.get] in Hact.
  by_key key; try discriminate Hact; injection Hact as <-;
    cbn [FLBR.skill];
    solve [ left; reflexivity
          | right; left; reflexivity
          | right; right; do 2 eexists;
            split; [ reflexivity | split; [ cbv; auto 20 | split; [ reflexivity | cbv; auto ] ] ] ].
Qed.

(** X5 at the first-aid action, rolled with medical aid. *)
Lemma actionSkillMap_skills_witness :
  exists s a,
    Js.prop s FLBR.skillMap = Some a /\ In a FLBR.attributes
    /\ option_map FLBR.skill (Js.prop "action-first-aid" FLBR.actionSkillMap)
       = Some (Js.Str s).
Proof.
  destruct (actionSkillMap_skills "action-first-aid"
              {| FLBR.label := "FLBR.CombatAction.FirstAid";
                 FLBR.skill := Js.Str "medicalAid" |} eq_refl)
    as [_ [H | [H | (s & a & Hs & _ & Hmap & Ha)]]];
    [ discriminate H | discriminate H | ].
  exists s, a. repeat split; try assumption.
  cbn in Hs. injection Hs as <-. reflexivity.
Defined.

(** A number is recovered from its decimal spelling. *)
Lemma decimal_spelling_inj (z z' : Z) :
  NilEmpty.string_of_int (Z.to_int z) = NilEmpty.string_of_int (Z.to_int z')
  -> z = z'.
Proof.
  assert (Hnil : forall x, Z.to_int x <> Decimal.Pos Decimal.Nil
                           /\ Z.to_int x <> Decimal.Neg Decimal.Nil).
  { intros [| p | p]; cbn; split; try discriminate;
      intros [= H]; now apply (DecimalPos.Unsigned.to_uint_nonnil p). }
  intros H. apply DecimalZ.to_int_inj.
  apply (f_equal NilEmpty.int_of_string) in H.
  rewrite !NilEmpty.isi in H by apply Hnil.
  now injection H.
Qed.

Lemma blastPowerMap_entries :
  FLBR.blastPowerMap
  = [("12", {| FLBR.damage := 4; FLBR.crit := 12 |});
     ("10", {| FLBR.damage := 3; FLBR.crit := 10 |});
     ("8", {| FLBR.damage := 2; FLBR.crit := 8 |});
     ("6", {| FLBR.damage := 1; FLBR.crit := 6 |})]%Z.
Proof. reflexivity. Qed.

(** X6: a number has a blast power entry exactly when it is one of the
    four die scores; the crit die of the entry is that score and its damage
    is half of what the score has above four. *)
Theorem blastPower_by_die_score (power : Z) (b : FLBR.blast) :
  FLBR.blastPower power = Some b
  <-> In power (Js.values BR.DIE_SCORES)
      /\ b = {| FLBR.damage := (power - 4) / 2; FLBR.crit := power |}.
Proof.
  split.
  - unfold FLBR.blastPower, Js.prop. rewrite blastPowerMap_entries.
    cbn [Js.get]. intros H.
    repeat match type of H with
           | context [String.eqb ?k ?lit] =>
               destruct (String.eqb_spec k lit) as [Hk | _]
           end; try discriminate H;
      injection H as <-;
      [ apply (decimal_spelling_inj power 12) in Hk
      | apply (decimal_spelling_inj power 10) in Hk
      | apply (decimal_spelling_inj power 8) in Hk
      | apply (decimal_spelling_inj power 6) in Hk ];
      subst power; (split; [ cbv; auto | reflexivity ]).
  - intros [Hin ->]. each_member Hin; reflexivity.
Qed.

(* ================================================================== *)
(** * More on item rolls *)
(* ================================================================== *)

Section ItemRollOutcomes.

Variable localize : string -> string.
Variable capitalize : string -> string.
Variable Modifier : Type.


(** X7: a rollable item of an actor that names no attribute makes [roll]
    throw, before any handler is built: nothing is rendered. *)
Theorem roll_without_attribute_throws (item : Item.t Modifier)
    (act : Item.Actor Modifier) (apps : Item.Rendered Modifier) :
  Item.is_rollable item = true ->
  Item.actor item = Some act ->
  Item.attribute (Item.props item) = None ->
  Item.roll localize capitalize item apps = (Item.Throw "TypeError", apps).
Proof.
  intros Hroll Hact Hkey. unfold Item.roll.
  rewrite Hroll, Hact, Hkey. reflexivity.
Qed.

(** X8: [roll] has no guard on the dice: when neither the attribute score
    nor the skill score is truthy, a handler is rendered all the same, with
    an empty dice list. *)
Theorem roll_without_dice_renders (item : Item.t Modifier)
    (act : Item.Actor Modifier) (key : string)
    (apps : Item.Rendered Modifier) :
  Item.is_rollable item = true ->
  Item.actor item = Some act ->
  Item.attribute (Item.props item) = Some key ->
  Js.truthy (Item.getAttribute act key) = false ->
  Js.truthy (Item.getSkill act (Item.skill (Item.props item))) = false ->
  exists o,
    Item.roll localize capitalize item apps
    = (Item.Return (Some o), (apps ++ [o])%list)
    /\ Item.ro_dice o = []
    /\ Item.ro_items o = [item].
Proof.
  intros Hroll Hact Hkey Ha Hs.
  unfold Item.roll. rewrite Hroll, Hact, Hkey. cbn [negb].
  eexists. split; [ reflexivity | ].
  cbn [Item.ro_dice Item.ro_items]. rewrite Ha, Hs. split; reflexivity.
Qed.


End ItemRollOutcomes.

(** X7 at a rollable item without an attribute. *)
Lemma roll_without_attribute_throws_witness :
  Item.roll Examples.noTranslation Examples.noTranslation
    Examples.trinket []
  = (Item.Throw "TypeError", []).
Proof.
  apply (roll_without_attribute_throws Examples.noTranslation
           Examples.noTranslation unit Examples.trinket Examples.human);
    reflexivity.
Defined.

(** X8 at an actor whose attribute is undefined and whose skill is 0. *)
Lemma roll_without_dice_renders_witness :
  exists o,
    Item.roll Examples.noTranslation Examples.noTranslation
      (Examples.pistol (Js.Boolean true) (Some Examples.blank)) []
    = (Item.Return (Some o), [o])
    /\ Item.ro_dice o = [].
Proof.
  destruct (roll_without_dice_renders Examples.noTranslation
              Examples.noTranslation unit
              (Examples.pistol (Js.Boolean true) (Some Examples.blank))
              Examples.blank "agi" []
              eq_refl eq_refl eq_refl eq_refl eq_refl)
    as (o & Hrun & Hdice & _).
  exists o. split; assumption.
Defined.

(* ================================================================== *)
(** * The character sheet *)
(* ================================================================== *)

(** A key has a property in an object exactly when it is one of its
    keys. *)
Lemma prop_None_iff {V : Type} (k : string) (o : Js.object V) :
  Js.prop k o = None <-> ~ In k (Js.keys o).
Proof.
  unfold Js.prop, Js.keys.
  induction o as [| [k' v] o IH]; cbn [Js.get map fst In].
  - tauto.
  - destruct (String.eqb_spec k k') as [-> | Hneq].
    + split; [ discriminate | intros H; contradiction H; now left ].
    + rewrite IH. split.
      * intros H [Heq | Hin]; [ now apply Hneq | now apply H ].
      * intros H Hin. apply H. now right.
Qed.

Section SheetHandlers.

Variable localize : string -> string.
Variable capitalize : string -> string.

(** X10: the limited view of the sheet (a user who is no game master and
    has limited permission) gets the limited template and none of the
    listeners of this class; whenever the class binds listeners, it binds
    the three of them, the sheet is editable and its template is the full
    one. *)
Theorem listeners_only_on_full_sheet (gameSystemId : option string)
    (c : CharacterSheet.Context) :
  (CharacterSheet.isGM c = false -> CharacterSheet.limited c = true ->
   CharacterSheet.activateListeners c = []
   /\ CharacterSheet.template gameSystemId c
      = "systems/" ++ CharacterSheet.sysId gameSystemId
        ++ "/templates/actor/character/character-limited-sheet.hbs")
  /\ (CharacterSheet.activateListeners c <> [] ->
      map CharacterSheet.handle (CharacterSheet.activateListeners c)
      = [CharacterSheet.OnStatRoll; CharacterSheet.OnActionRoll;
         CharacterSheet.OnResolveDecrease]
      /\ CharacterSheet.isEditable c = true
      /\ CharacterSheet.template gameSystemId c
         = "systems/" ++ CharacterSheet.sysId gameSystemId
           ++ "/templates/actor/character/character-sheet.hbs").
Proof.
  unfold CharacterSheet.activateListeners, CharacterSheet.template.
  split.
  - intros -> ->. split; reflexivity.
  - destruct (negb (CharacterSheet.isGM c) && CharacterSheet.limited c);
      [ intros H; now contradiction H | ].
    destruct (CharacterSheet.isEditable c);
      [ | intros H; now contradiction H ].
    intros _. repeat split.
Qed.

(** X11: [_onActionRoll] throws when the clicked element carries no skill;
    for a skill of the skill map it calls [rollStat] with the attribute
    that governs the skill; for a key that is no skill but a name every
    object inherits, such as constructor, it calls [rollStat] with that
    inherited member; for any other key, such as the word any of the
    use-item action, it calls [rollStat] with an undefined attribute. *)
Theorem onActionRoll_attribute (innerText : string) (skillKey : string) :
  CharacterSheet.onActionRoll localize capitalize innerText None
  = Item.Throw "TypeError"
  /\ (exists call,
        CharacterSheet.onActionRoll localize capitalize innerText
          (Some skillKey) = Item.Return call
        /\ CharacterSheet.rs_skill call = Some skillKey
        /\ (In skillKey FLBR.skills ->
            exists a, CharacterSheet.rs_attribute call = Js.Value a
                      /\ Js.prop skillKey FLBR.skillMap = Some a
                      /\ In a (Js.values BR.ATTRIBUTES.enum))
        /\ (~ In skillKey FLBR.skills ->
            In skillKey Js.prototypeNames ->
            CharacterSheet.rs_attribute call = Js.FromPrototype skillKey)
        /\ (~ In skillKey FLBR.skills ->
            ~ In skillKey Js.prototypeNames ->
            CharacterSheet.rs_attribute call = Js.NoValue)).
Proof.
  split; [ reflexivity | ].
  eexists. split; [ reflexivity | ].
  cbn [CharacterSheet.rs_skill CharacterSheet.rs_attribute].
  unfold Js.index.
  split; [ reflexivity | ]. split; [ | split ].
  - intros Hin. each_member Hin; eexists;
      (split; [ reflexivity | split; [ reflexivity | cbv; auto 10 ] ]).
  - intros Hnot Hproto. apply prop_None_iff in Hnot. rewrite Hnot.
    assert (E : existsb (String.eqb skillKey) Js.prototypeNames = true).
    { apply existsb_exists. exists skillKey.
      split; [ exact Hproto | apply String.eqb_refl ]. }
    now rewrite E.
  - intros Hnot Hproto. apply prop_None_iff in Hnot. rewrite Hnot.
    destruct (existsb (String.eqb skillKey) Js.prototypeNames) eqn:E;
      [ | reflexivity ].
    apply existsb_exists in E. destruct E as (x & Hx & Heq).
    apply String.eqb_eq in Heq. subst x. now contradiction Hproto.
Qed.

End SheetHandlers.

(** X12: the sheet data never mark an actor as both a player character
    and a non-player character, and a right click on the resolve boxes
    rolls for resolve only on a player character whose resolve value is at
    most one. *)
Theorem resolve_roll_only_for_pc (c : CharacterSheet.Context) :
  (CharacterSheet.isPC c && CharacterSheet.isNPC c = false)
  /\ (CharacterSheet.onResolveDecrease c = true <->
      CharacterSheet.isPC c = true
      /\ (CharacterSheet.resolve_value c <= 1)%Z).
Proof.
  unfold CharacterSheet.isPC, CharacterSheet.isNPC,
    CharacterSheet.onResolveDecrease.
  split.
  - destruct (CharacterSheet.subtype c) as [| | b | z | s]; try reflexivity.
    cbn [Js.strict_eq].
    destruct (String.eqb_spec s BR.ACTOR_SUBTYPES.PC) as [-> | _];
      reflexivity.
  - destruct (Js.strict_eq (CharacterSheet.subtype c)
                (Js.Str BR.ACTOR_SUBTYPES.PC)); cbn [negb].
    + destruct (Z.ltb_spec 1 (CharacterSheet.resolve_value c)).
      * split; [ discriminate | intros [_ H']; lia ].
      * split; [ intros _; split; [ reflexivity | lia ] | reflexivity ].
    + split; [ discriminate | intros [H' _]; discriminate H' ].
Qed.

(** X10 at the limited view. *)
Lemma listeners_only_on_full_sheet_witness :
  CharacterSheet.activateListeners Examples.limitedView = []
  /\ List.length (CharacterSheet.activateListeners Examples.ownerView) = 3%nat
  /\ CharacterSheet.template None Examples.ownerView
     = "systems/blade-runner/templates/actor/character/character-sheet.hbs".
Proof.
  destruct (listeners_only_on_full_sheet None Examples.limitedView)
    as [Hlimited _].
  destruct (listeners_only_on_full_sheet None Examples.ownerView)
    as [_ Hfull].
  destruct (Hlimited eq_refl eq_refl) as [Hnone _].
  destruct Hfull as (Hthree & _ & Htemplate); [ discriminate | ].
  split; [ exact Hnone | split; [ | exact Htemplate ] ].
  rewrite <- (length_map CharacterSheet.handle), Hthree. reflexivity.
Defined.

(** X11 at the skill of the use-item action, at firearms and at a name
    inherited from the prototype. *)
Lemma onActionRoll_attribute_witness :
  (exists call,
      CharacterSheet.onActionRoll Examples.noTranslation
        Examples.noTranslation "Use item" (Some "any") = Item.Return call
      /\ CharacterSheet.rs_attribute call = Js.NoValue)
  /\ (exists call,
        CharacterSheet.onActionRoll Examples.noTranslation
          Examples.noTranslation "Shoot" (Some "firearms") = Item.Return call
        /\ CharacterSheet.rs_attribute call = Js.Value "agi")
  /\ (exists call,
        CharacterSheet.onActionRoll Examples.noTranslation
          Examples.noTranslation "Odd" (Some "constructor") = Item.Return call
        /\ CharacterSheet.rs_attribute call = Js.FromPrototype "constructor").
Proof.
  split; [ | split ].
  - destruct (onActionRoll_attribute Examples.noTranslation
                Examples.noTranslation "Use item" "any")
      as (_ & call & Hrun & _ & _ & _ & Hout).
    exists call. split; [ exact Hrun | ].
    apply Hout; cbv; intuition discriminate.
  - destruct (onActionRoll_attribute Examples.noTranslation
                Examples.noTranslation "Shoot" "firearms")
      as (_ & call & Hrun & _ & Hskill & _).
    exists call. split; [ exact Hrun | ].
    destruct Hskill as (a & Hattr & Hmap & _); [ cbv; auto 10 | ].
    rewrite Hattr. cbv in Hmap. now injection Hmap as <-.
  - destruct (onActionRoll_attribute Examples.noTranslation
                Examples.noTranslation "Odd" "constructor")
      as (_ & call & Hrun & _ & _ & Hproto & _).
    exists call. split; [ exact Hrun | ].
    apply Hproto; [ cbv; intuition discriminate | cbv; auto ].
Defined.

(** X12 at the owner of a player character with one point of resolve. *)
Lemma resolve_roll_only_for_pc_witness :
  CharacterSheet.onResolveDecrease Examples.ownerView = true.
Proof.
  apply (resolve_roll_only_for_pc Examples.ownerView).
  split; [ reflexivity | cbn; lia ].
Defined.

(* ================================================================== *)
(** * The build and release tasks *)
(* ================================================================== *)

Lemma replace_unfold (pattern replacement s : string) :
  Messages.replace pattern replacement s
  = if String.prefix pattern s
    then replacement ++ Messages.drop (String.length pattern) s
    else match s with
         | EmptyString => EmptyString
         | String c s' =>
             String c (Messages.replace pattern replacement s')
         end.
Proof. destruct s; reflexivity. Qed.

Lemma prefix_append (p s : string) : String.prefix p (p ++ s) = true.
Proof.
  induction p as [| c p IH]; cbn.
  - now destruct s.
  - destruct (ascii_dec c c) as [_ | Hneq]; [ exact IH | now contradiction Hneq ].
Qed.

Lemma drop_append (p s : string) :
  Messages.drop (String.length p) (p ++ s) = s.
Proof.
  induction p as [| c p IH]; cbn; [ now destruct s | exact IH ].
Qed.

(** A pattern at the very start of a string is the occurrence that is
    replaced. *)
Lemma replace_at_start (pattern replacement s : string) :
  Messages.replace pattern replacement (pattern ++ s) = replacement ++ s.
Proof.
  rewrite replace_unfold, prefix_append, drop_append. reflexivity.
Qed.

(** X13: [pipeTemplates] copies a template file found under
    [./src/templates/] to the same relative path under
    [./dist/templates/]; for any file under [./src/] the destination drops
    the first [templates/] of the relative path. *)
Theorem templateDestination_under_src (rel : string) :
  Gulp.templateDestination ("./src/templates/" ++ rel)
  = "./dist/templates/" ++ rel
  /\ Gulp.templateDestination ("./src/" ++ rel)
     = "./dist/templates/" ++ Messages.replace "templates/" EmptyString rel.
Proof.
  unfold Gulp.templateDestination, Gulp.sourceDirectory, Gulp.distDirectory.
  split.
  - change ("./src/templates/" ++ rel)
      with (("./src" ++ "/") ++ ("templates/" ++ rel)).
    rewrite replace_at_start. cbn [append].
    change (String "t" (String "e" (String "m" (String "p" (String "l"
             (String "a" (String "t" (String "e" (String "s" (String "/" rel))))))))))
      with ("templates/" ++ rel).
    rewrite replace_at_start. reflexivity.
  - change ("./src/" ++ rel) with (("./src" ++ "/") ++ rel).
    rewrite replace_at_start. reflexivity.
Qed.

Section ReleaseTask.

Variable semver_inc : string -> string -> option string.
Variable semver_valid : string -> option string.
Variable red : string -> string.

(** When nothing fails on the disk, [bumpVersionIO] is [bumpVersion]. *)
Lemma bumpVersionIO_no_failure (argv_release argv_r : option string)
    (p : Gulp.Project) :
  Gulp.bumpVersionIO semver_inc semver_valid red
    {| Gulp.manifest_readable := true; Gulp.package_writable := true;
       Gulp.manifest_writable := true |} argv_release argv_r p
  = Item.Return
      (Gulp.bumpVersion semver_inc semver_valid red argv_release argv_r p).
Proof.
  unfold Gulp.bumpVersionIO, Gulp.bumpVersion.
  cbn [Gulp.manifest_readable Gulp.package_writable Gulp.manifest_writable
       negb].
  destruct (Gulp.manifest_file p) eqn:Hm; cbn [Gulp.call Gulp.manifest_file];
    rewrite ?Hm; reflexivity.
Qed.

(** X14: when the manifest exists but cannot be read or parsed,
    [bumpVersion] fails before its [try]: no callback, nothing changed.
    When it can be read, the callback is called exactly once, in one of
    four ways.  Success: the package object, [package.json] and the
    manifest carry the same new version, different from the old one, and
    the manifest has the download address of that version.  Arguments
    refused: an error, and the package object, both files and the console
    are as they were.  Failed write of [package.json]: an error, and the
    package object already carries the new version while both files are
    as they were.  Failed write of the manifest: an error, and the package
    object and [package.json] already carry the new version while the
    manifest is as it was.  So the task is all or nothing only when no
    write fails. *)
Theorem bumpVersion_with_manifest (disk : Gulp.Disk)
    (argv_release argv_r : option string)
    (p : Gulp.Project) (m : Gulp.Manifest) :
  Gulp.manifest_file p = Some m ->
  (Gulp.manifest_readable disk = false ->
   Gulp.bumpVersionIO semver_inc semver_valid red disk argv_release argv_r p
   = Item.Throw "Error")
  /\ (Gulp.manifest_readable disk = true ->
      exists p',
        Gulp.bumpVersionIO semver_inc semver_valid red disk
          argv_release argv_r p = Item.Return p'
        /\ ((exists target,
               Gulp.callbacks p' = (Gulp.callbacks p ++ [None])%list
               /\ target <> Gulp.packageJson_version p
               /\ Gulp.packageJson_version p' = target
               /\ Gulp.package_file p' = target
               /\ Gulp.manifest_file p'
                  = Some {| Gulp.m_version := target;
                            Gulp.m_download := Gulp.getDownloadURL target |})
            \/ (exists error,
                  Gulp.callbacks p' = (Gulp.callbacks p ++ [Some error])%list
                  /\ Gulp.packageJson_version p' = Gulp.packageJson_version p
                  /\ Gulp.package_file p' = Gulp.package_file p
                  /\ Gulp.manifest_file p' = Gulp.manifest_file p
                  /\ Gulp.console p' = Gulp.console p)
            \/ (exists error,
                  Gulp.package_writable disk = false
                  /\ Gulp.callbacks p' = (Gulp.callbacks p ++ [Some error])%list
                  /\ Gulp.packageJson_version p' <> Gulp.packageJson_version p
                  /\ Gulp.package_file p' = Gulp.package_file p
                  /\ Gulp.manifest_file p' = Gulp.manifest_file p)
            \/ (exists error,
                  Gulp.package_writable disk = true
                  /\ Gulp.manifest_writable disk = false
                  /\ Gulp.callbacks p' = (Gulp.callbacks p ++ [Some error])%list
                  /\ Gulp.packageJson_version p' <> Gulp.packageJson_version p
                  /\ Gulp.package_file p' = Gulp.packageJson_version p'
                  /\ Gulp.manifest_file p' = Gulp.manifest_file p))).
Proof.
  intros Hm. unfold Gulp.bumpVersionIO. rewrite Hm. split.
  - intros ->. reflexivity.
  - intros ->. eexists. split; [ reflexivity | ].
    destruct (if Item.truthyKey argv_release then argv_release else argv_r)
      as [release |];
      [ | right; left; eexists; repeat split; exact Hm ].
    destruct (Item.truthyKey (Some release)); cbn [negb];
      [ | right; left; eexists; repeat split; exact Hm ].
    destruct (Gulp.getTargetVersion semver_inc semver_valid
                (Gulp.packageJson_version p) release) as [target |];
      [ | right; left; eexists; repeat split; exact Hm ].
    destruct (Item.truthyKey (Some target)); cbn [negb];
      [ | right; left; eexists; repeat split; exact Hm ].
    destruct (String.eqb_spec target (Gulp.packageJson_version p))
      as [Heq | Hneq];
      [ right; left; eexists; repeat split; exact Hm | ].
    destruct (Gulp.package_writable disk) eqn:Hpkg; cbn [negb].
    2:{ right; right; left. eexists.
        split; [ reflexivity | ]. split; [ reflexivity | ].
        split; [ exact Hneq | ]. split; [ reflexivity | exact Hm ]. }
    destruct (Gulp.manifest_writable disk) eqn:Hman; cbn [negb].
    + left. exists target. repeat split. exact Hneq.
    + right; right; right. eexists.
      split; [ reflexivity | ]. split; [ reflexivity | ].
      split; [ reflexivity | ]. split; [ exact Hneq | ].
      split; [ reflexivity | exact Hm ].
Qed.

(** X15: when the manifest is missing, [bumpVersion] does not stop after
    reporting it: the callback is called a second time, again with an
    error, and when the release arguments give a new version, the package
    object and [package.json] are moved to that version although no
    manifest was written. *)
Theorem bumpVersion_without_manifest (argv_release argv_r : option string)
    (p : Gulp.Project) :
  Gulp.manifest_file p = None ->
  let p' := Gulp.bumpVersion semver_inc semver_valid red
              argv_release argv_r p in
  (exists error,
      Gulp.callbacks p'
      = (Gulp.callbacks p
         ++ [Some (red "Manifest JSON not found"); Some error])%list)
  /\ Gulp.manifest_file p' = None
  /\ (forall release target,
        (if Item.truthyKey argv_release then argv_release else argv_r)
        = Some release ->
        release <> EmptyString ->
        Gulp.getTargetVersion semver_inc semver_valid
          (Gulp.packageJson_version p) release = Some target ->
        target <> EmptyString ->
        target <> Gulp.packageJson_version p ->
        Gulp.package_file p' = target
        /\ Gulp.packageJson_version p' = target).
Proof.
  intros Hm p'. subst p'. unfold Gulp.bumpVersion. rewrite Hm.
  cbn [Gulp.call Gulp.packageJson_version].
  destruct (if Item.truthyKey argv_release then argv_release else argv_r)
    as [release |].
  2:{ split; [ eexists; cbn; rewrite <- app_assoc; reflexivity | ].
      split; [ exact Hm | intros ? ? [=] ]. }
  destruct (String.eqb_spec release EmptyString) as [-> | Hrel].
  { split; [ eexists; cbn; rewrite <- app_assoc; reflexivity | ].
    split; [ exact Hm | intros ? ? [= <-] H; now contradiction H ]. }
  assert (Htr : Item.truthyKey (Some release) = true).
  { cbn. now apply Bool.negb_true_iff, String.eqb_neq. }
  rewrite Htr. cbn [negb].
  destruct (Gulp.getTargetVersion semver_inc semver_valid
              (Gulp.packageJson_version p) release) as [target |] eqn:Ht.
  2:{ split; [ eexists; cbn; rewrite <- app_assoc; reflexivity | ].
      split; [ exact Hm
             | intros ? ? [= <-] _ Ht'; rewrite Ht in Ht'; discriminate Ht' ]. }
  destruct (String.eqb_spec target EmptyString) as [-> | Htgt].
  { split; [ eexists; cbn; rewrite <- app_assoc; reflexivity | ].
    split; [ exact Hm
           | intros ? ? [= <-] _ Ht'; rewrite Ht in Ht';
             injection Ht' as <-; intros H; now contradiction H ]. }
  assert (Htt : Item.truthyKey (Some target) = true).
  { cbn. now apply Bool.negb_true_iff, String.eqb_neq. }
  rewrite Htt. cbn [negb].
  destruct (String.eqb_spec target (Gulp.packageJson_version p))
    as [Heq | Hneq].
  { split; [ eexists; cbn; rewrite <- app_assoc; reflexivity | ].
    split; [ exact Hm
           | intros ? ? [= <-] _ Ht'; rewrite Ht in Ht';
             injection Ht' as <-; intros _ H; now contradiction H ]. }
  split; [ eexists; cbn; rewrite <- app_assoc; reflexivity | ].
  split; [ exact Hm | ].
  intros ? ? [= <-] _ Ht'. rewrite Ht in Ht'. injection Ht' as <-.
  intros _ _. split; reflexivity.
Qed.

End ReleaseTask.

(** X14 at a major release of version 11.0.1, on a disk where the
    manifest cannot be written. *)
Lemma bumpVersion_with_manifest_witness :
  exists p',
    Gulp.bumpVersionIO Examples.incMajor Examples.noVersion Examples.plain
      Examples.readOnlyManifest (Some "major") None
      (Examples.project (Some Examples.manifest0))
    = Item.Return p'
    /\ Gulp.package_file p' = "12.0.0"
    /\ Gulp.manifest_file p' = Some Examples.manifest0.
Proof.
  destruct (bumpVersion_with_manifest Examples.incMajor Examples.noVersion
              Examples.plain Examples.readOnlyManifest (Some "major") None
              (Examples.project (Some Examples.manifest0))
              Examples.manifest0 eq_refl)
    as [_ Hread].
  destruct (Hread eq_refl) as (p' & Hrun & Hcases).
  exists p'. split; [ exact Hrun | ].
  injection Hrun as <-. split; reflexivity.
Defined.

(** X15 at a major release without a manifest. *)
Lemma bumpVersion_without_manifest_witness :
  Gulp.package_file
    (Gulp.bumpVersion Examples.incMajor Examples.noVersion Examples.plain
       (Some "major") None (Examples.project None))
  = "12.0.0".
Proof.
  destruct (bumpVersion_without_manifest Examples.incMajor Examples.noVersion
              Examples.plain (Some "major") None (Examples.project None)
              eq_refl)
    as (_ & _ & Hwritten).
  apply (Hwritten "major" "12.0.0"); try reflexivity; discriminate.
Defined.

(* ================================================================== *)
(** * Comment stripping *)
(* ================================================================== *)

(** One step of [strip], with the pattern match on the two slashes
    written as a test. *)
Lemma strip_step (b : bool) (c : ascii) (rest : string) :
  Messages.strip b (String c rest)
  = if b && negb (Messages.lineTerminator c) then Messages.strip true rest
    else if Messages.commentAt (String c rest)
         then Messages.strip true (Messages.drop 2 rest)
         else String c (Messages.strip false rest).
Proof.
  cbn [Messages.strip Messages.commentAt].
  destruct (b && negb (Messages.lineTerminator c)); [ reflexivity | ].
  destruct rest as [| c1 [| c2 rest']];
    [ now rewrite Bool.andb_false_r
    | cbn [Messages.slashes]; rewrite Bool.andb_false_r;
      now destruct c1 as [[] [] [] [] [] [] [] []]
    | ].
  cbn [Messages.slashes Messages.drop].
  destruct (Ascii.eqb_spec c1 "/") as [-> | H1].
  - destruct (Ascii.eqb_spec c2 "/") as [-> | H2].
    + cbn [andb]. rewrite Bool.andb_true_r. reflexivity.
    + cbn [andb]. rewrite Bool.andb_false_r.
      destruct c2 as [[] [] [] [] [] [] [] []];
        solve [ reflexivity | now contradiction H2 ].
  - cbn [andb]. rewrite Bool.andb_false_r.
    destruct c1 as [[] [] [] [] [] [] [] []];
      solve [ reflexivity | now contradiction H1 ].
Qed.

(** Skipping the rest of a line passes over two slashes. *)
Lemma strip_true_slashes (rest : string) :
  Messages.slashes rest = true ->
  Messages.strip true (Messages.drop 2 rest) = Messages.strip true rest.
Proof.
  destruct rest as [| c1 [| c2 rest']]; try discriminate.
  cbn [Messages.slashes Messages.drop]. intros H.
  apply Bool.andb_true_iff in H. destruct H as [H1 H2].
  apply Ascii.eqb_eq in H1, H2. subst.
  rewrite !strip_step. reflexivity.
Qed.

(** What is left after skipping the rest of a line is empty or starts
    with a line terminator. *)
Lemma strip_true_head (s : string) :
  Messages.strip true s = EmptyString
  \/ Messages.headIs Messages.lineTerminator (Messages.strip true s) = true.
Proof.
  induction s as [| c rest IH]; [ now left | ].
  rewrite strip_step. cbn [andb].
  destruct (Messages.lineTerminator c) eqn:Hc; cbn [negb]; [ | exact IH ].
  destruct (Messages.commentAt (String c rest)) eqn:Hat.
  - cbn [Messages.commentAt] in Hat. apply Bool.andb_true_iff in Hat.
    rewrite strip_true_slashes by apply Hat. exact IH.
  - right. exact Hc.
Qed.

Lemma strip_true_no_slash (s : string) :
  Messages.headIs (fun c => Ascii.eqb c "/") (Messages.strip true s) = false.
Proof.
  destruct (strip_true_head s) as [-> | H]; [ reflexivity | ].
  destruct (Messages.strip true s) as [| c o]; [ reflexivity | ].
  cbn [Messages.headIs] in *. destruct (Ascii.eqb_spec c "/") as [-> | _];
    [ discriminate H | reflexivity ].
Qed.

(** A slash at the start of the output was at the start of the input. *)
Lemma strip_false_slash (s : string) :
  Messages.headIs (fun c => Ascii.eqb c "/") (Messages.strip false s) = true ->
  Messages.headIs (fun c => Ascii.eqb c "/") s = true.
Proof.
  destruct s as [| c rest]; [ discriminate | ].
  rewrite strip_step. cbn [andb].
  destruct (Messages.commentAt (String c rest)).
  - now rewrite strip_true_no_slash.
  - trivial.
Qed.

(** Two slashes at the start of the output were at the start of the
    input. *)
Lemma strip_false_slashes (s : string) :
  Messages.slashes (Messages.strip false s) = true ->
  Messages.slashes s = true.
Proof.
  destruct s as [| c rest]; [ discriminate | ].
  rewrite strip_step. cbn [andb].
  destruct (Messages.commentAt (String c rest)).
  - intros H.
    assert (Hno := strip_true_no_slash (Messages.drop 2 rest)).
    destruct (Messages.strip true (Messages.drop 2 rest)) as [| c1 [| c2 o]];
      try discriminate H.
    cbn [Messages.slashes] in H. cbn [Messages.headIs] in Hno.
    rewrite Hno in H. discriminate H.
  - intros H.
    assert (Hrest := strip_false_slash rest).
    destruct (Messages.strip false rest) as [| c2 o]; [ discriminate H | ].
    cbn [Messages.slashes] in H. apply Bool.andb_true_iff in H.
    destruct H as [Hc Hc2].
    specialize (Hrest Hc2).
    destruct rest as [| c2' rest']; [ discriminate Hrest | ].
    cbn [Messages.headIs] in Hrest. cbn [Messages.slashes].
    now rewrite Hc, Hrest.
Qed.

Lemma strip_no_comment (b : bool) (s : string) :
  Messages.hasComment (Messages.strip b s) = false.
Proof.
  revert b. induction s as [| c rest IH]; intros b; [ reflexivity | ].
  rewrite strip_step.
  destruct (b && negb (Messages.lineTerminator c)); [ apply IH | ].
  destruct (Messages.commentAt (String c rest)) eqn:Hat.
  - cbn [Messages.commentAt] in Hat. apply Bool.andb_true_iff in Hat.
    rewrite strip_true_slashes by apply Hat. apply IH.
  - cbn [Messages.hasComment]. rewrite IH, Bool.orb_false_r.
    cbn [Messages.commentAt] in *.
    destruct (negb (Ascii.eqb c ":")); [ | reflexivity ].
    cbn [andb] in *.
    destruct (Messages.slashes (Messages.strip false rest)) eqn:Hout;
      [ | reflexivity ].
    apply strip_false_slashes in Hout. congruence.
Qed.

Lemma strip_without_comment (s : string) :
  Messages.hasComment s = false -> Messages.strip false s = s.
Proof.
  induction s as [| c rest IH]; [ reflexivity | ].
  cbn [Messages.hasComment]. intros H.
  apply Bool.orb_false_iff in H. destruct H as [Hat Hrest].
  rewrite strip_step, Hat. cbn [andb]. now rewrite IH.
Qed.

(** X16: the text [stripJSON] returns holds no match of its pattern any
    more (no character other than a colon followed by two slashes), so
    stripping it again changes nothing. *)
Theorem stripJSON_leaves_no_comment (data : string) :
  Messages.hasComment (Messages.stripJSON data) = false
  /\ Messages.stripJSON (Messages.stripJSON data) = Messages.stripJSON data.
Proof.
  unfold Messages.stripJSON. split.
  - apply strip_no_comment.
  - apply strip_without_comment, strip_no_comment.
Qed.

(** X17: a text without a match of the pattern comes back unchanged; in
    particular two slashes that follow a colon, as in the address of a
    link, are not taken for a comment. *)
Theorem stripJSON_keeps_plain_text (data : string) :
  Messages.hasComment data = false ->
  Messages.stripJSON data = data.
Proof.
  apply strip_without_comment.
Qed.

(** X17 at a line that holds the address of a link. *)
Lemma stripJSON_keeps_plain_text_witness :
  Messages.stripJSON "{ 'link': 'https://example.org' }"
  = "{ 'link': 'https://example.org' }".
Proof.
  apply (stripJSON_keeps_plain_text "{ 'link': 'https://example.org' }").
  reflexivity.
Defined.

(* ================================================================== *)
(** * More on the display pass *)
(* ================================================================== *)

Section DisplaySteps.
Import Messages.

Variable game : Game.
Variable localize : string -> string.

(** What one display step adds to the host: at most one dialog or one
    chat message, and a title on the shown-list exactly for a chat
    message. *)
Lemma handleDisplay_appends (msg : Message) (h : Host) :
  exists ds cs,
    settings (handleDisplay game localize msg h)
    = (settings h ++ map cm_title cs)%list
    /\ dialogs (handleDisplay game localize msg h) = (dialogs h ++ ds)%list
    /\ chatLog (handleDisplay game localize msg h) = (chatLog h ++ cs)%list
    /\ (List.length ds + List.length cs <= 1)%nat
    /\ (forall c, In c cs -> cm_title c = title msg)
    /\ (forall d, In d ds -> dlg_callback d = title msg).
Proof.
  unfold handleDisplay.
  destruct (isCurrent game h msg); cbn [negb].
  2:{ exists [], []. rewrite !app_nil_r. cbn. repeat split; auto; contradiction. }
  destruct (Js.strict_eq (type msg) (Js.Str "prompt")).
  { eexists [_], []. cbn [displayPrompt settings dialogs chatLog map].
    rewrite !app_nil_r. repeat split; auto.
    - contradiction.
    - intros d [<- | []]. reflexivity. }
  destruct (Js.strict_eq (type msg) (Js.Str "chat")).
  { eexists [], [_].
    cbn [sendToChat setDisplayed settings dialogs chatLog map cm_title].
    rewrite !app_nil_r. repeat split; auto.
    - intros c [<- | []]. reflexivity.
    - contradiction. }
  exists [], []. rewrite !app_nil_r. cbn. repeat split; auto; contradiction.
Qed.

Lemma handleDisplay_keeps_titles (msg : Message) (h : Host) (t : string) :
  In t (settings h) -> In t (settings (handleDisplay game localize msg h)).
Proof.
  intros Hin.
  destruct (handleDisplay_appends msg h) as (ds & cs & -> & _).
  apply in_or_app. now left.
Qed.

Lemma displayAll_keeps_titles (messages : list Message) (h : Host)
    (t : string) :
  In t (settings h) ->
  In t (settings (displayAll game localize messages h)).
Proof.
  revert h. induction messages as [| msg messages IH]; intros h Hin;
    [ exact Hin | ].
  cbn [displayAll fold_left]. apply IH.
  now apply handleDisplay_keeps_titles.
Qed.

Lemma silent_noop (h : Host) (msg : Message) :
  silent game h msg -> handleDisplay game localize msg h = h.
Proof.
  intros [Hcur | [Hp Hc]]; unfold handleDisplay.
  - now rewrite Hcur.
  - rewrite Hp, Hc. now destruct (isCurrent game h msg).
Qed.

Lemma silent_stays (h h' : Host) (msg : Message) :
  (forall t, In t (settings h) -> In t (settings h')) ->
  silent game h msg -> silent game h' msg.
Proof.
  intros Hgrow [Hcur | Htype]; [ left | now right ].
  unfold isCurrent in *. rewrite isDisplayable_shown in *.
  destruct (correctCoreVersion game msg), (correctSysVersion game msg);
    rewrite ?Bool.andb_false_r, ?Bool.andb_true_r in *; try reflexivity.
  apply Bool.negb_false_iff in Hcur. apply Bool.negb_false_iff.
  apply hasDisplayed_In. apply Hgrow. now apply hasDisplayed_In.
Qed.

Lemma handleDisplay_then_silent (h : Host) (msg : Message) :
  Js.strict_eq (type msg) (Js.Str "prompt") = false ->
  silent game (handleDisplay game localize msg h) msg.
Proof.
  intros Hp. unfold handleDisplay.
  destruct (isCurrent game h msg) eqn:Hcur; cbn [negb]; [ | now left ].
  rewrite Hp.
  destruct (Js.strict_eq (type msg) (Js.Str "chat")) eqn:Hc;
    [ | right; now split ].
  left. apply isCurrent_shown. apply hasDisplayed_In.
  cbn [sendToChat setDisplayed settings]. apply in_or_app. right. now left.
Qed.

Lemma displayAll_then_silent (messages : list Message) (h : Host) :
  (forall msg, In msg messages ->
               Js.strict_eq (type msg) (Js.Str "prompt") = false) ->
  forall msg, In msg messages ->
              silent game (displayAll game localize messages h) msg.
Proof.
  revert h. induction messages as [| m messages IH]; intros h Hchat msg Hin;
    [ contradiction | ].
  cbn [displayAll fold_left].
  destruct Hin as [<- | Hin].
  - apply (silent_stays (handleDisplay game localize m h)).
    + intros t. apply displayAll_keeps_titles.
    + apply handleDisplay_then_silent. apply Hchat. now left.
  - apply IH; [ | exact Hin ].
    intros m' Hm'. apply Hchat. now right.
Qed.

Lemma displayAll_silent_noop (messages : list Message) (h : Host) :
  (forall msg, In msg messages -> silent game h msg) ->
  displayAll game localize messages h = h.
Proof.
  induction messages as [| m messages IH]; intros Hsilent; [ reflexivity | ].
  cbn [displayAll fold_left]. rewrite silent_noop by (apply Hsilent; now left).
  apply IH. intros msg Hin. apply Hsilent. now right.
Qed.

(** X18: a message whose title is on the shown-list is not displayed,
    whatever its scope, its type and its version bounds: the step leaves
    the host as it is. *)
Theorem shown_title_never_displayed (msg : Message) (h : Host) :
  In (title msg) (settings h) ->
  isCurrent game h msg = false
  /\ handleDisplay game localize msg h = h.
Proof.
  intros Hin. apply hasDisplayed_In in Hin.
  split; [ now apply isCurrent_shown | ].
  apply handleDisplay_not_current. now apply isCurrent_shown.
Qed.

(** X19: the display step of a chat message is idempotent: taken a second
    time right after the first, it changes nothing, because the first one
    recorded the title. *)
Theorem chat_message_sent_once (msg : Message) (h : Host) :
  type msg = Js.Str "chat" ->
  handleDisplay game localize msg (handleDisplay game localize msg h)
  = handleDisplay game localize msg h.
Proof.
  intros Htype. apply silent_noop. apply handleDisplay_then_silent.
  now rewrite Htype.
Qed.

(** X20: a second pass over a catalog without prompts changes nothing:
    whatever the first pass displayed is on the shown-list, and what it
    did not display is not displayed by the second pass either. *)
Theorem second_pass_changes_nothing (messages : list Message) (h : Host) :
  (forall msg, In msg messages ->
               Js.strict_eq (type msg) (Js.Str "prompt") = false) ->
  displayAll game localize messages (displayAll game localize messages h)
  = displayAll game localize messages h.
Proof.
  intros Hchat. apply displayAll_silent_noop.
  now apply displayAll_then_silent.
Qed.

(** X21: a pass only appends: the shown-list, the open dialogs and the
    chat log keep what they held, in order; the titles added to the
    shown-list are the titles of the chat messages sent, in the same
    order, each the title of a message of the catalog; every dialog
    opened will record the title of a message of the catalog; and no more
    dialogs and chat messages are added than the catalog has messages. *)
Theorem pass_only_appends (messages : list Message) (h : Host) :
  exists ds cs,
    settings (displayAll game localize messages h)
    = (settings h ++ map cm_title cs)%list
    /\ dialogs (displayAll game localize messages h) = (dialogs h ++ ds)%list
    /\ chatLog (displayAll game localize messages h) = (chatLog h ++ cs)%list
    /\ (List.length ds + List.length cs <= List.length messages)%nat
    /\ (forall c, In c cs -> exists msg, In msg messages /\ title msg = cm_title c)
    /\ (forall d, In d ds ->
                  exists msg, In msg messages /\ title msg = dlg_callback d).
Proof.
  revert h. induction messages as [| m messages IH]; intros h.
  - exists [], []. cbn. rewrite !app_nil_r.
    repeat split; auto; contradiction.
  - cbn [displayAll fold_left].
    destruct (handleDisplay_appends m h)
      as (ds1 & cs1 & Hs1 & Hd1 & Hc1 & Hlen1 & Hcs1 & Hds1).
    destruct (IH (handleDisplay game localize m h))
      as (ds2 & cs2 & Hs2 & Hd2 & Hc2 & Hlen2 & Hcs2 & Hds2).
    fold (displayAll game localize messages (handleDisplay game localize m h)).
    exists (ds1 ++ ds2)%list, (cs1 ++ cs2)%list.
    rewrite Hs2, Hd2, Hc2, Hs1, Hd1, Hc1, map_app, !app_assoc, !length_app.
    repeat split; auto.
    + cbn [List.length]. lia.
    + intros c Hin. apply in_app_or in Hin. destruct Hin as [Hin | Hin].
      * exists m. split; [ now left | symmetry; now apply Hcs1 ].
      * destruct (Hcs2 c Hin) as (msg & Hmsg & Ht).
        exists msg. split; [ now right | exact Ht ].
    + intros d Hin. apply in_app_or in Hin. destruct Hin as [Hin | Hin].
      * exists m. split; [ now left | symmetry; now apply Hds1 ].
      * destruct (Hds2 d Hin) as (msg & Hmsg & Ht).
        exists msg. split; [ now right | exact Ht ].
Qed.

(** X22: a current prompt is opened without being recorded: the
    shown-list stays as it is and one dialog is added, so the message is
    still current and the next step opens it again; once the dialog is
    confirmed, its callback records the title and the message is no longer
    displayed. *)
Theorem prompt_recorded_on_confirmation (msg : Message) (h : Host) :
  type msg = Js.Str "prompt" ->
  isCurrent game h msg = true ->
  exists d,
    settings (handleDisplay game localize msg h) = settings h
    /\ dialogs (handleDisplay game localize msg h) = (dialogs h ++ [d])%list
    /\ dlg_title d = title msg
    /\ isCurrent game (handleDisplay game localize msg h) msg = true
    /\ settings (confirmPrompt d (handleDisplay game localize msg h))
       = (settings h ++ [title msg])%list
    /\ handleDisplay game localize msg
         (confirmPrompt d (handleDisplay game localize msg h))
       = confirmPrompt d (handleDisplay game localize msg h).
Proof.
  intros Htype Hcur.
  assert (Hstep : handleDisplay game localize msg h
                  = displayPrompt game (title msg) (content msg) h).
  { unfold handleDisplay. rewrite Hcur, Htype. reflexivity. }
  rewrite Hstep. eexists.
  split; [ reflexivity | ].
  split; [ reflexivity | ].
  split; [ reflexivity | ].
  split; [ exact Hcur | ].
  split; [ reflexivity | ].
  apply handleDisplay_not_current, isCurrent_shown, hasDisplayed_In.
  cbn [confirmPrompt setDisplayed displayPrompt settings dlg_callback].
  apply in_or_app. right. now left.
Qed.

End DisplaySteps.

Section DisplayPassWhole.
Import Messages.

Variable game : Game.
Variable localize : string -> string.
Variable JSON_parse : string -> option (list Message).

(** X23: whatever is fetched and however the promise settles,
    [displayMessages] keeps a shown-list without repetition free of
    repetition. *)
Theorem displayMessages_keeps_titles_unique (fetched : option string)
    (h : Host) :
  NoDup (settings h) ->
  NoDup (settings (snd (displayMessages game localize JSON_parse fetched h))).
Proof.
  intros Hnd. unfold displayMessages.
  destruct fetched as [jsonc |]; [ | exact Hnd ].
  destruct (JSON_parse (stripJSON jsonc)) as [messages |]; [ | exact Hnd ].
  cbn [snd]. revert h Hnd.
  induction messages as [| m messages IH]; intros h Hnd; [ exact Hnd | ].
  cbn [fold_left]. apply IH.
  destruct (handleDisplay_settings game localize h m) as [-> | [Hcur ->]];
    [ exact Hnd | ].
  apply (setDisplayed_fresh (title m) h Hnd).
  unfold isCurrent in Hcur. rewrite isDisplayable_shown in Hcur.
  destruct (hasDisplayed h (title m)); [ discriminate Hcur | reflexivity ].
Qed.

End DisplayPassWhole.

(** X18 at a recurring message whose title is on the shown-list. *)
Lemma shown_title_never_displayed_witness :
  Messages.handleDisplay Examples.game0 Examples.noTranslation
    Examples.msg_every Examples.host_shown
  = Examples.host_shown.
Proof.
  apply (shown_title_never_displayed Examples.game0 Examples.noTranslation
           Examples.msg_every Examples.host_shown).
  cbn. now left.
Defined.

(** X19 at a one-time chat message on a fresh host. *)
Lemma chat_message_sent_once_witness :
  List.length
    (Messages.chatLog
       (Messages.handleDisplay Examples.game0 Examples.noTranslation
          Examples.msg_min_sys
          (Messages.handleDisplay Examples.game0 Examples.noTranslation
             Examples.msg_min_sys Examples.host_fresh)))
  = 1%nat.
Proof.
  rewrite (chat_message_sent_once Examples.game0 Examples.noTranslation
             Examples.msg_min_sys Examples.host_fresh eq_refl).
  reflexivity.
Defined.

(** X20 at a catalog of two chat messages. *)
Lemma second_pass_changes_nothing_witness :
  Messages.displayAll Examples.game0 Examples.noTranslation
    [Examples.msg_every; Examples.msg_min_sys]
    (Messages.displayAll Examples.game0 Examples.noTranslation
       [Examples.msg_every; Examples.msg_min_sys] Examples.host_fresh)
  = Messages.displayAll Examples.game0 Examples.noTranslation
      [Examples.msg_every; Examples.msg_min_sys] Examples.host_fresh.
Proof.
  apply (second_pass_changes_nothing Examples.game0 Examples.noTranslation).
  intros msg [<- | [<- | []]]; reflexivity.
Defined.

(** X22 at a one-time prompt on a fresh host. *)
Lemma prompt_recorded_on_confirmation_witness :
  exists d,
    Messages.dialogs
      (Messages.handleDisplay Examples.game0 Examples.noTranslation
         Examples.msg_prompt Examples.host_fresh) = [d]
    /\ Messages.settings
         (Messages.confirmPrompt d
            (Messages.handleDisplay Examples.game0 Examples.noTranslation
               Examples.msg_prompt Examples.host_fresh))
       = ["Welcome"].
Proof.
  destruct (prompt_recorded_on_confirmation Examples.game0
              Examples.noTranslation Examples.msg_prompt Examples.host_fresh
              eq_refl eq_refl)
    as (d & _ & Hdialogs & _ & _ & Hsettings & _).
  exists d. split; [ exact Hdialogs | exact Hsettings ].
Defined.

(** X23 at a catalog that holds the same chat message twice. *)
Lemma displayMessages_keeps_titles_unique_witness :
  NoDup
    (Messages.settings
       (snd (Messages.displayMessages Examples.game0 Examples.noTranslation
               (Examples.spells [Examples.msg_min_sys; Examples.msg_min_sys])
               (Some "[ ... ]") Examples.host_shown))).
Proof.
  apply (displayMessages_keeps_titles_unique Examples.game0
           Examples.noTranslation).
  cbn. constructor; [ intros [] | constructor ].
Defined.

Section ItemRollTitle.

Variable localize : string -> string.
Variable capitalize : string -> string.
Variable Modifier : Type.

(** X24: the title of an item roll and the targets its modifiers are
    asked for treat the skill key alike: without a skill key, or with an
    empty one, the title names the attribute only and the modifiers are
    those targeting the attribute; with a skill key the title names both
    and the modifiers are those targeting the attribute and the skill.  The
    handler is given the attribute and skill keys of the item as they
    are. *)
Theorem roll_title_and_targets (item : Item.t Modifier)
    (act : Item.Actor Modifier) (key : string)
    (apps : Item.Rendered Modifier) :
  Item.is_rollable item = true ->
  Item.actor item = Some act ->
  Item.attribute (Item.props item) = Some key ->
  exists o,
    Item.roll localize capitalize item apps
    = (Item.Return (Some o), (apps ++ [o])%list)
    /\ Item.ro_attributeKey Modifier o = key
    /\ Item.ro_skillKey Modifier o = Item.skill (Item.props item)
    /\ (Item.truthyKey (Item.skill (Item.props item)) = false ->
        Item.ro_title o
        = Item.detailedName item ++ " ("
          ++ localize ("FLBR.ATTRIBUTE." ++ Item.toUpperCase key) ++ ")"
        /\ Item.ro_modifiers Modifier o = Item.getRollModifiers act [key])
    /\ (forall k,
          Item.skill (Item.props item) = Some k -> k <> EmptyString ->
          Item.ro_title o
          = Item.detailedName item ++ " ("
            ++ localize ("FLBR.ATTRIBUTE." ++ Item.toUpperCase key)
            ++ " & " ++ localize ("FLBR.SKILL." ++ capitalize k) ++ ")"
          /\ Item.ro_modifiers Modifier o
             = Item.getRollModifiers act [key; k]).
Proof.
  intros Hroll Hact Hkey.
  unfold Item.roll. rewrite Hroll, Hact, Hkey. cbn [negb].
  eexists. split; [ reflexivity | ].
  cbn [Item.ro_attributeKey Item.ro_skillKey Item.ro_title Item.ro_modifiers].
  split; [ reflexivity | ]. split; [ reflexivity | ]. split.
  - intros Hfalsy.
    destruct (Item.skill (Item.props item)) as [k |];
      [ rewrite Hfalsy | ]; split; reflexivity.
  - intros k -> Hk.
    assert (Htruthy : Item.truthyKey (Some k) = true).
    { cbn. now apply Bool.negb_true_iff, String.eqb_neq. }
    rewrite Htruthy. split; reflexivity.
Qed.

End ItemRollTitle.

(** X24 at a pistol rolled with agility and firearms. *)
Lemma roll_title_and_targets_witness :
  exists o,
    Item.roll Examples.noTranslation Examples.noTranslation
      (Examples.pistol (Js.Boolean true) (Some Examples.human)) []
    = (Item.Return (Some o), [o])
    /\ Item.ro_title o = "Pistol (FLBR.ATTRIBUTE.AGI & FLBR.SKILL.firearms)".
Proof.
  destruct (roll_title_and_targets Examples.noTranslation
              Examples.noTranslation unit
              (Examples.pistol (Js.Boolean true) (Some Examples.human))
              Examples.human "agi" [] eq_refl eq_refl eq_refl)
    as (o & Hrun & _ & _ & _ & Hskill).
  exists o. split; [ exact Hrun | ].
  destruct (Hskill "firearms" eq_refl) as [Htitle _]; [ discriminate | ].
  exact Htitle.
Defined.
